(** * PokemonEyes: gaze-to-input bridge for a Game Boy emulator

    A shallow embedding of [eye-tracking-pokemon-webapp.py]: the
    coordinate-to-direction classifier, the module-level globals, the
    Flask request handlers and the emulator thread [run_game], followed
    by the properties of the specification that were checked against
    them.

    Modelling conventions.
    - Python numbers are exact rationals ([Q]); rounding of floats and
      the non-finite floats are not modelled.
    - A parsed JSON request body is a value of [json]; an object is
      the list of its members in textual order and a lookup returns the
      LAST binding of a key, as [json.loads] does.
    - Python exceptions are a [Result]; [try ... except Exception] is
      [try_except].
    - PyBoy is an external collaborator: the emulator is the list of the
      calls made to it, and an oracle decides which call raises.
    - [time.time()] is passed to the handlers that read it.
    - The thread of [run_game] and the request handlers share the globals;
      the process is a sequence of events, each of them run to its end
      before the next: the start of the thread, one pass through its loop,
      or one request served. *)

From Stdlib Require Import QArith Qabs ZArith String List Bool Lia Lqa.
Import ListNotations.

Open Scope string_scope.
Open Scope Q_scope.

(** ** Python values and exceptions *)

#[local] Set Warnings "-register-all".

Inductive json : Type :=
| JNull
| JBool (b : bool)
| JNum (q : Q)
| JStr (s : string)
| JArr (items : list json)
| JObj (fields : list (string * json)).

Inductive exn : Type :=
| AttributeError   (* [.get] on a value that is not a dict *)
| TypeError        (* arithmetic on a value that is not a number *)
| EmulatorError.   (* anything PyBoy raises *)

Inductive Result (A : Type) : Type :=
| Ok (a : A)
| Raise (e : exn).
Arguments Ok {A} a.
Arguments Raise {A} e.

Module ResultMonad.
Definition ret {A} (a : A) : Result A := Ok a.
Definition bind {A B} (m : Result A) (k : A -> Result B) : Result B :=
  match m with
  | Ok a => k a
  | Raise e => Raise e
  end.
End ResultMonad.

Declare Scope result_scope.
Delimit Scope result_scope with result.
Notation "x <- m ;; k" := (ResultMonad.bind m (fun x => k))
  (at level 100, m at next level, right associativity) : result_scope.

(** [d.get(key, default)] on the members of a JSON object. *)
Fixpoint dict_get (key : string) (default : json)
         (fields : list (string * json)) : json :=
  match fields with
  | [] => default
  | (k, v) :: rest => dict_get key (if String.eqb key k then v else default) rest
  end.


(** [data.get(key, default)] where [data] is any parsed JSON value. *)
Definition py_get (data : json) (key : string) (default : json) : Result json :=
  match data with
  | JObj fields => Ok (dict_get key default fields)
  | _ => Raise AttributeError
  end.

(** The number a JSON value stands for in arithmetic; [bool] is a
    subclass of [int] in Python. *)
Definition to_number (v : json) : option Q :=
  match v with
  | JNum q => Some q
  | JBool true => Some 1
  | JBool false => Some 0
  | _ => None
  end.

(** [v - c] for a float [c]. *)
Definition py_sub (v : json) (c : Q) : Result Q :=
  match to_number v with
  | Some q => Ok (q - c)
  | None => Raise TypeError
  end.

(** [v == s] for a string literal [s]. *)
Definition py_eq_str (v : json) (s : string) : bool :=
  match v with
  | JStr t => String.eqb t s
  | _ => false
  end.

(** [a < b] on numbers. *)
Definition Qlt_bool (a b : Q) : bool :=
  (Qnum a * QDen b <? Qnum b * QDen a)%Z.

(** ** Configuration *)

Record Config : Type := {
  ROM_PATH : string;
  SCREEN_WIDTH : Q;
  SCREEN_HEIGHT : Q;
  DEAD_ZONE : Q;
  HEADLESS : option string   (* os.environ.get("HEADLESS") *)
}.

(** The values the script is shipped with. *)
Definition default_config : Config := {|
  ROM_PATH := "pokemon.gb";
  SCREEN_WIDTH := 1920;
  SCREEN_HEIGHT := 1080;
  DEAD_ZONE := 100;
  HEADLESS := None
|}.

(** ** The direction classifier *)

Definition get_direction_from_coords (cfg : Config) (x y : json)
  : Result (option string) :=
  (let center_x := SCREEN_WIDTH cfg / 2 in
   let center_y := SCREEN_HEIGHT cfg / 2 in
   (* if abs(x - center_x) < DEAD_ZONE and abs(y - center_y) < DEAD_ZONE *)
   ax <- py_sub x center_x ;;
   in_dead_zone <-
     (if Qlt_bool (Qabs ax) (DEAD_ZONE cfg)
      then ay <- py_sub y center_y ;; Ok (Qlt_bool (Qabs ay) (DEAD_ZONE cfg))
      else Ok false) ;;
   if in_dead_zone then Ok None
   else
     dx <- py_sub x center_x ;;
     dy <- py_sub y center_y ;;
     if Qlt_bool (Qabs dy) (Qabs dx)
     then Ok (Some (if Qlt_bool 0 dx then "right" else "left"))
     else Ok (Some (if Qlt_bool 0 dy then "down" else "up")))%result.

(** ** The emulator collaborator *)

Inductive WindowEvent : Type :=
| PRESS_ARROW_UP | PRESS_ARROW_DOWN | PRESS_ARROW_LEFT | PRESS_ARROW_RIGHT
| RELEASE_ARROW_UP | RELEASE_ARROW_DOWN | RELEASE_ARROW_LEFT | RELEASE_ARROW_RIGHT
| PRESS_BUTTON_A | PRESS_BUTTON_B | PRESS_BUTTON_START | PRESS_BUTTON_SELECT
| RELEASE_BUTTON_A | RELEASE_BUTTON_B | RELEASE_BUTTON_START | RELEASE_BUTTON_SELECT.

(** What the script asks of PyBoy. *)
Inductive EmuCall : Type :=
| PyBoy_init (rom_path window_type : string)
| set_emulation_speed (n : Z)
| send_input (e : WindowEvent)
| tick
| stop.

(** The emulator object bound to [pyboy_instance]. *)
Inductive PyBoy : Type := PyBoyObject.

(** ** Module-level globals, and the calls the emulator has received *)

Record State : Type := {
  pyboy_instance : option PyBoy;
  current_direction : option string;
  last_eye_update : Q;
  eye_tracking_enabled : bool;
  emulator_calls : list EmuCall
}.

Definition initial_state : State := {|
  pyboy_instance := None;
  current_direction := None;
  last_eye_update := 0;
  eye_tracking_enabled := false;
  emulator_calls := []
|}.

Definition set_pyboy_instance (p : option PyBoy) (s : State) : State :=
  {| pyboy_instance := p;
     current_direction := current_direction s;
     last_eye_update := last_eye_update s;
     eye_tracking_enabled := eye_tracking_enabled s;
     emulator_calls := emulator_calls s |}.

Definition set_current_direction (d : option string) (s : State) : State :=
  {| pyboy_instance := pyboy_instance s;
     current_direction := d;
     last_eye_update := last_eye_update s;
     eye_tracking_enabled := eye_tracking_enabled s;
     emulator_calls := emulator_calls s |}.

Definition set_last_eye_update (t : Q) (s : State) : State :=
  {| pyboy_instance := pyboy_instance s;
     current_direction := current_direction s;
     last_eye_update := t;
     eye_tracking_enabled := eye_tracking_enabled s;
     emulator_calls := emulator_calls s |}.

Definition set_eye_tracking_enabled (b : bool) (s : State) : State :=
  {| pyboy_instance := pyboy_instance s;
     current_direction := current_direction s;
     last_eye_update := last_eye_update s;
     eye_tracking_enabled := b;
     emulator_calls := emulator_calls s |}.

Definition record_call (c : EmuCall) (s : State) : State :=
  {| pyboy_instance := pyboy_instance s;
     current_direction := current_direction s;
     last_eye_update := last_eye_update s;
     eye_tracking_enabled := eye_tracking_enabled s;
     emulator_calls := emulator_calls s ++ [c] |}.

(** ** A state-and-exception monad for the script's statements *)

Definition M (A : Type) : Type := State -> Result A * State.

Definition ret {A} (a : A) : M A := fun s => (Ok a, s).

Definition bind {A B} (m : M A) (k : A -> M B) : M B :=
  fun s =>
    match m s with
    | (Ok a, s') => k a s'
    | (Raise e, s') => (Raise e, s')
    end.

Definition gets {A} (f : State -> A) : M A := fun s => (Ok (f s), s).
Definition modify (f : State -> State) : M unit := fun s => (Ok tt, f s).
Definition lift {A} (r : Result A) : M A := fun s => (r, s).

(** [try: body  except Exception as e: handler(e)]; what [body] wrote
    before raising stays written. *)
Definition try_except {A} (body : M A) (handler : exn -> M A) : M A :=
  fun s =>
    match body s with
    | (Ok a, s') => (Ok a, s')
    | (Raise e, s') => handler e s'
    end.

Declare Scope py_scope.
Delimit Scope py_scope with py.
Notation "x <- m ;; k" := (bind m (fun x => k))
  (at level 100, m at next level, right associativity) : py_scope.
Notation "m ;; k" := (bind m (fun _ => k))
  (at level 100, right associativity) : py_scope.

(** Truthiness of [None] or a [str]. *)
Definition truthy (d : option string) : bool :=
  match d with
  | Some s => negb (String.eqb s "")
  | None => false
  end.

Definition direction_eqb (a b : option string) : bool :=
  match a, b with
  | Some s, Some t => String.eqb s t
  | None, None => true
  | _, _ => false
  end.

Definition json_of_direction (d : option string) : json :=
  match d with
  | Some s => JStr s
  | None => JNull
  end.

(** [v in names], and the string that [v] then is. *)
Definition py_in (v : json) (names : list string) : bool :=
  existsb (py_eq_str v) names.

Definition str_of (v : json) : option string :=
  match v with
  | JStr s => Some s
  | _ => None
  end.

(** ** HTTP responses *)

Inductive Response : Type :=
| Html                 (* render_template('index.html') *)
| Json200 (body : json)
| Json400 (e : exn)     (* {'status': 'error', 'message': str(e)}, 400 *)
| Http500.             (* Flask's answer to an exception no handler caught *)

Definition success : json := JObj [("status", JStr "success")].

Section App.

Variable cfg : Config.

(** [raises history c]: does the emulator raise when it receives the
    call [c] after the calls of [history]? *)
Variable raises : list EmuCall -> EmuCall -> bool.

Open Scope py_scope.

(** A call into PyBoy: it is recorded, and raises when the oracle
    says so. *)
Definition call (c : EmuCall) : M unit :=
  fun s =>
    (if raises (emulator_calls s) c then Raise EmulatorError else Ok tt,
     record_call c s).

(** *** The emulator thread, [run_game] *)

(** ["SDL2" if not os.environ.get("HEADLESS") else "headless"] *)
Definition window_type : string :=
  if negb (truthy (HEADLESS cfg)) then "SDL2" else "headless".

(** Lines 51-58: construct the emulator, bind the global, set the
    speed.  When the constructor raises, the global keeps its value. *)
Definition run_game_setup : M unit :=
  call (PyBoy_init (ROM_PATH cfg) window_type) ;;
  modify (set_pyboy_instance (Some PyBoyObject)) ;;
  call (set_emulation_speed 1).

(** [current_direction == name], a read of the global. *)
Definition direction_is (name : string) : M bool :=
  d <- gets current_direction ;;
  ret (direction_eqb d (Some name)).

(** Lines 64-71. *)
Definition press_arrow : M unit :=
  up <- direction_is "up" ;;
  if up then call (send_input PRESS_ARROW_UP)
  else
    down <- direction_is "down" ;;
    if down then call (send_input PRESS_ARROW_DOWN)
    else
      left <- direction_is "left" ;;
      if left then call (send_input PRESS_ARROW_LEFT)
      else
        right <- direction_is "right" ;;
        if right then call (send_input PRESS_ARROW_RIGHT)
        else ret tt.

(** Lines 77-84. *)
Definition release_arrow : M unit :=
  up <- direction_is "up" ;;
  if up then call (send_input RELEASE_ARROW_UP)
  else
    down <- direction_is "down" ;;
    if down then call (send_input RELEASE_ARROW_DOWN)
    else
      left <- direction_is "left" ;;
      if left then call (send_input RELEASE_ARROW_LEFT)
      else
        right <- direction_is "right" ;;
        if right then call (send_input RELEASE_ARROW_RIGHT)
        else ret tt.

(** Lines 62-90, one pass through the body of [while True];
    [time.sleep(0.016)] has no effect on the state. *)
Definition run_game_iteration : M unit :=
  enabled <- gets eye_tracking_enabled ;;
  go <- (if enabled
         then d <- gets current_direction ;; ret (truthy d)
         else ret false) ;;
  (if go
   then press_arrow ;; call tick ;; release_arrow
   else ret tt) ;;
  call tick.

(** Lines 92-96: [except Exception] swallows the exception (it is
    printed), [finally] stops the emulator if the global is bound. *)
Definition run_game_finally : M unit :=
  p <- gets pyboy_instance ;;
  match p with
  | Some _ => call stop
  | None => ret tt
  end.

(** *** The request handlers *)

(** [POST /eye_data]; [now] is what [time.time()] would return. *)
Definition receive_eye_data (now : Q) (data : json) : M Response :=
  try_except
    (x <- lift (py_get data "x" (JNum 0)) ;;
     y <- lift (py_get data "y" (JNum 0)) ;;
     new_direction <- lift (get_direction_from_coords cfg x y) ;;
     cur <- gets current_direction ;;
     (if negb (direction_eqb new_direction cur)
      then modify (set_current_direction new_direction) ;;
           modify (set_last_eye_update now)
      else ret tt) ;;
     d <- gets current_direction ;;
     ret (Json200 (JObj [("status", JStr "success");
                         ("direction", json_of_direction d);
                         ("x", x);
                         ("y", y)])))
    (fun e => ret (Json400 e)).

(** Lines 150-165: press, one frame, release. *)
Definition tap (press release : WindowEvent) : M unit :=
  call (send_input press) ;;
  call tick ;;
  call (send_input release).

(** [POST /control] *)
Definition control (data : json) : M Response :=
  try_except
    (action <- lift (py_get data "action" JNull) ;;
     (if py_eq_str action "press" then
        direction <- lift (py_get data "direction" JNull) ;;
        if py_in direction ["up"; "down"; "left"; "right"]
        then modify (set_current_direction (str_of direction))
        else ret tt
      else if py_eq_str action "release" then
        modify (set_current_direction None)
      else if py_eq_str action "button" then
        button <- lift (py_get data "button" JNull) ;;
        p <- gets pyboy_instance ;;
        match p with
        | Some _ =>
            if py_eq_str button "a" then
              tap PRESS_BUTTON_A RELEASE_BUTTON_A
            else if py_eq_str button "b" then
              tap PRESS_BUTTON_B RELEASE_BUTTON_B
            else if py_eq_str button "start" then
              tap PRESS_BUTTON_START RELEASE_BUTTON_START
            else if py_eq_str button "select" then
              tap PRESS_BUTTON_SELECT RELEASE_BUTTON_SELECT
            else ret tt
        | None => ret tt
        end
      else ret tt) ;;
     ret (Json200 success))
    (fun e => ret (Json400 e)).

(** [POST /toggle_eye_tracking] *)
Definition toggle_eye_tracking : M Response :=
  b <- gets eye_tracking_enabled ;;
  modify (set_eye_tracking_enabled (negb b)) ;;
  b' <- gets eye_tracking_enabled ;;
  ret (Json200 (JObj [("status", JStr "success");
                      ("eye_tracking_enabled", JBool b')])).

(** [GET /status]; a number is truthy when it is not zero. *)
Definition status (now : Q) : M Response :=
  p <- gets pyboy_instance ;;
  enabled <- gets eye_tracking_enabled ;;
  d <- gets current_direction ;;
  last <- gets last_eye_update ;;
  ret (Json200 (JObj [("game_running",
                         JBool (match p with Some _ => true | None => false end));
                      ("eye_tracking_enabled", JBool enabled);
                      ("current_direction", json_of_direction d);
                      ("last_update",
                         if negb (Qeq_bool last 0) then JNum (now - last)
                         else JNull)])).

(** [GET /] *)
Definition index : M Response := ret Html.

End App.

(** ** The whole process: emulator thread and request handlers *)

Inductive Request : Type :=
| GET_index
| POST_eye_data (data : json)
| POST_control (data : json)
| POST_toggle_eye_tracking
| GET_status.

(** Where the thread started by [__main__] is in [run_game]. *)
Inductive GameThread : Type :=
| NotStarted
| Looping
| Exited.

Record System : Type := {
  state : State;
  game_thread : GameThread
}.

Definition initial_system : System :=
  {| state := initial_state; game_thread := NotStarted |}.

(** What can happen next: the thread runs lines 51-58, the thread runs
    the loop body once, or Flask serves a request at clock time [now]. *)
Inductive Event : Type :=
| GameStart
| GameIteration
| Http (now : Q) (r : Request).

Section Process.

Variable cfg : Config.
Variable raises : list EmuCall -> EmuCall -> bool.

Definition handle (now : Q) (r : Request) : M Response :=
  match r with
  | GET_index => index
  | POST_eye_data data => receive_eye_data cfg now data
  | POST_control data => control raises data
  | POST_toggle_eye_tracking => toggle_eye_tracking
  | GET_status => status now
  end.

(** A piece of the [try] block of [run_game]: the thread goes on when
    it returns, and leaves through [except]/[finally] when it raises. *)
Definition in_try (body : M unit) (s : State) : System :=
  match body s with
  | (Ok _, s') => {| state := s'; game_thread := Looping |}
  | (Raise _, s') =>
      {| state := snd (run_game_finally raises s'); game_thread := Exited |}
  end.

Definition step (sys : System) (ev : Event) : System :=
  match ev, game_thread sys with
  | GameStart, NotStarted => in_try (run_game_setup cfg raises) (state sys)
  | GameIteration, Looping => in_try (run_game_iteration raises) (state sys)
  | Http now r, _ =>
      {| state := snd (handle now r (state sys));
         game_thread := game_thread sys |}
  | _, _ => sys
  end.

Definition run (sys : System) (evs : list Event) : System :=
  fold_left step evs sys.

(** [run_game()] left alone for [n] passes through its loop. *)
Definition run_game (n : nat) (s : State) : System :=
  run {| state := s; game_thread := NotStarted |}
      (GameStart :: repeat GameIteration n).

End Process.

(** ** Vocabulary of the specification *)

(** What the client receives. *)
Definition response (m : M Response) (s : State) : Response :=
  match fst (m s) with
  | Ok r => r
  | Raise _ => Http500
  end.

(** A member of a JSON response. *)
Definition field (key : string) (r : Response) : json :=
  match r with
  | Json200 (JObj fields) => dict_get key JNull fields
  | _ => JNull
  end.

(** The Direction enum of the data model, None apart. *)
Inductive Direction : Type := Up | Down | Left | Right.

Definition name (d : Direction) : string :=
  match d with
  | Up => "up"
  | Down => "down"
  | Left => "left"
  | Right => "right"
  end.

(** The button a direction is mapped to. *)
Definition press_event (d : Direction) : WindowEvent :=
  match d with
  | Up => PRESS_ARROW_UP
  | Down => PRESS_ARROW_DOWN
  | Left => PRESS_ARROW_LEFT
  | Right => PRESS_ARROW_RIGHT
  end.

Definition release_event (d : Direction) : WindowEvent :=
  match d with
  | Up => RELEASE_ARROW_UP
  | Down => RELEASE_ARROW_DOWN
  | Left => RELEASE_ARROW_LEFT
  | Right => RELEASE_ARROW_RIGHT
  end.

(** A value of [current_direction] that is None or names a Direction. *)
Definition is_direction (v : option string) : Prop :=
  v = None \/ exists d, v = Some (name d).

(** The states the process can be in. *)
Definition reachable (cfg : Config) (raises : list EmuCall -> EmuCall -> bool)
           (sys : System) : Prop :=
  exists evs, sys = run cfg raises initial_system evs.

(** The classifier's output for the GazePoint a request carries, when it
    carries one: an /eye_data request with an object body whose x and y
    (0 when absent) are numbers. *)
Definition gaze_direction (cfg : Config) (r : Request) : option (option string) :=
  match r with
  | POST_eye_data (JObj fields) =>
      match get_direction_from_coords cfg (dict_get "x" (JNum 0) fields)
                                      (dict_get "y" (JNum 0) fields) with
      | Ok d => Some d
      | Raise _ => None
      end
  | _ => None
  end.

(** The most recent GazePoint so far, one event later. *)
Definition gaze_acc (cfg : Config) (acc : option (option string)) (ev : Event)
  : option (option string) :=
  match ev with
  | Http _ r =>
      match gaze_direction cfg r with
      | Some d => Some d
      | None => acc
      end
  | _ => acc
  end.

(** The classifier's output for the most recently received GazePoint. *)
Definition last_gaze (cfg : Config) (evs : list Event) : option (option string) :=
  fold_left (gaze_acc cfg) evs None.

Definition direction_of (acc : option (option string)) : option string :=
  match acc with
  | Some d => d
  | None => None
  end.

(** The value the invariant of the data model gives [currentDirection]. *)
Definition direction_of_last_gaze (cfg : Config) (evs : list Event)
  : option string :=
  direction_of (last_gaze cfg evs).

(** A manual override of the direction (section 4.3): /control with action
    press and a direction of the enum, or with action release. *)
Definition overrides (r : Request) : bool :=
  match r with
  | POST_control (JObj fields) =>
      let action := dict_get "action" JNull fields in
      (py_eq_str action "press"
       && py_in (dict_get "direction" JNull fields) ["up"; "down"; "left"; "right"])
      || py_eq_str action "release"
  | _ => false
  end.

(** "An override has been received since the last GazePoint", one event
    later. *)
Definition override_acc (cfg : Config) (flag : bool) (ev : Event) : bool :=
  match ev with
  | Http _ r =>
      match gaze_direction cfg r with
      | Some _ => false
      | None => flag || overrides r
      end
  | _ => flag
  end.

(** Has a manual override been received since the most recent GazePoint
    (since the start, when there was none)? *)
Definition overridden_since_gaze (cfg : Config) (evs : list Event) : bool :=
  fold_left (override_acc cfg) evs false.


Definition is_game_event (ev : Event) : bool :=
  match ev with
  | GameStart | GameIteration => true
  | Http _ _ => false
  end.

Definition is_eye_data (ev : Event) : bool :=
  match ev with
  | Http _ (POST_eye_data _) => true
  | _ => false
  end.

(** The clock time of the most recent event among those [counts] selects
    after which [current_direction] was not what it was before; [acc] when
    there is none. *)
Fixpoint last_change (cfg : Config) (raises : list EmuCall -> EmuCall -> bool)
         (counts : Event -> bool) (sys : System) (evs : list Event)
         (acc : option Q) : option Q :=
  match evs with
  | [] => acc
  | ev :: rest =>
      let sys' := step cfg raises sys ev in
      let changed :=
        negb (direction_eqb (current_direction (state sys'))
                            (current_direction (state sys))) in
      last_change cfg raises counts sys' rest
        match ev with
        | Http now _ => if counts ev && changed then Some now else acc
        | _ => acc
        end
  end.

(** What /status owes for a last change at [t], asked at [now]. *)
Definition seconds_since (now : Q) (t : option Q) : json :=
  match t with
  | Some t => JNum (now - t)
  | None => JNull
  end.

(** The clock never reads zero. *)
Definition clock_nonzero (ev : Event) : Prop :=
  match ev with
  | Http now _ => ~ now == 0
  | _ => True
  end.

(** ** Frame conditions *)

(** Whatever state [m] starts in, [R] relates it to the state [m] leaves,
    also when [m] raises. *)
Definition frames {A} (R : State -> State -> Prop) (m : M A) : Prop :=
  forall s, R s (snd (m s)).

(** The tracking globals are left as they were. *)
Definition same_tracking (s s' : State) : Prop :=
  current_direction s' = current_direction s /\
  last_eye_update s' = last_eye_update s /\
  eye_tracking_enabled s' = eye_tracking_enabled s.

(** Nothing but the emulator's call log differs. *)
Definition same_globals (s s' : State) : Prop :=
  same_tracking s s' /\ pyboy_instance s' = pyboy_instance s.

(** The globals that /control never writes are left as they were. *)
Definition same_but_direction (s s' : State) : Prop :=
  last_eye_update s' = last_eye_update s /\
  eye_tracking_enabled s' = eye_tracking_enabled s /\
  pyboy_instance s' = pyboy_instance s.

(** The current direction stays None or one of the four names. *)
Definition keeps_direction_valid (s s' : State) : Prop :=
  is_direction (current_direction s) -> is_direction (current_direction s').

(** ** Traces used as examples *)

(** PyBoy never raises. *)
Definition never_raises : list EmuCall -> EmuCall -> bool :=
  fun _ _ => false.

Definition gaze_body (x y : Q) : json :=
  JObj [("x", JNum x); ("y", JNum y)].

Definition press_body (direction : string) : json :=
  JObj [("action", JStr "press"); ("direction", JStr direction)].

(** A gaze at the centre of the screen, then the "up" key of the manual
    controls is held down. *)
Definition gaze_then_press : list Event :=
  [Http 1 (POST_eye_data (gaze_body 960 540));
   Http 2 (POST_control (press_body "up"))].

(** The "up" key of the manual controls is held down at clock time 5. *)
Definition press_at_5 : list Event :=
  [Http 5 (POST_control (press_body "up"))].

Definition any_event (ev : Event) : bool := true.

(** What [last_eye_update] holds when the last change counted was [acc]. *)
Definition stored_time (acc : option Q) : Q :=
  match acc with
  | Some t => t
  | None => 0
  end.

(** PyBoy raises on every [tick], and on nothing else. *)
Definition tick_raises : list EmuCall -> EmuCall -> bool :=
  fun _ c =>
    match c with
    | tick => true
    | _ => false
    end.

(** The emulator global is bound while the thread is in its loop. *)
Definition bound_while_looping (sys : System) : Prop :=
  game_thread sys = Looping -> pyboy_instance (state sys) = Some PyBoyObject.


(** The thread has left its loop and the emulator global is still bound. *)
Definition exited_still_bound (sys : System) : Prop :=
  game_thread sys = Exited /\ pyboy_instance (state sys) = Some PyBoyObject.

(** ** Vocabulary of the further properties *)

(** The action buttons of /control. *)
Inductive Button : Type := ButtonA | ButtonB | ButtonStart | ButtonSelect.

Definition button_name (b : Button) : string :=
  match b with
  | ButtonA => "a"
  | ButtonB => "b"
  | ButtonStart => "start"
  | ButtonSelect => "select"
  end.

Definition button_press (b : Button) : WindowEvent :=
  match b with
  | ButtonA => PRESS_BUTTON_A
  | ButtonB => PRESS_BUTTON_B
  | ButtonStart => PRESS_BUTTON_START
  | ButtonSelect => PRESS_BUTTON_SELECT
  end.

Definition button_release (b : Button) : WindowEvent :=
  match b with
  | ButtonA => RELEASE_BUTTON_A
  | ButtonB => RELEASE_BUTTON_B
  | ButtonStart => RELEASE_BUTTON_START
  | ButtonSelect => RELEASE_BUTTON_SELECT
  end.

Definition button_body (button : string) : json :=
  JObj [("action", JStr "button"); ("button", JStr button)].

Definition release_body : json :=
  JObj [("action", JStr "release")].



Definition is_stop (c : EmuCall) : bool :=
  match c with
  | stop => true
  | _ => false
  end.

(** How many times the emulator has been told to stop. *)
Definition stops (calls : list EmuCall) : nat :=
  length (filter is_stop calls).

Definition same_stops (s s' : State) : Prop :=
  stops (emulator_calls s') = stops (emulator_calls s).

Definition is_toggle (ev : Event) : bool :=
  match ev with
  | Http _ POST_toggle_eye_tracking => true
  | _ => false
  end.

Definition count_toggles (evs : list Event) : nat :=
  length (filter is_toggle evs).

(** The Direction a string names. *)
Definition direction_named (s : string) : option Direction :=
  if String.eqb s "up" then Some Up
  else if String.eqb s "down" then Some Down
  else if String.eqb s "left" then Some Left
  else if String.eqb s "right" then Some Right
  else None.

(** The calls of one pass through the loop, read off the globals. *)
Definition pass_calls (s : State) : list EmuCall :=
  if eye_tracking_enabled s && truthy (current_direction s)
  then match current_direction s with
       | Some n =>
           match direction_named n with
           | Some d => [send_input (press_event d); tick;
                        send_input (release_event d); tick]
           | None => [tick; tick]
           end
       | None => [tick]
       end
  else [tick].

(** The emulator raises nothing. *)
Definition quiet_emulator (raises : list EmuCall -> EmuCall -> bool) : Prop :=
  forall history c, raises history c = false.

(** The clock readings of the requests never go back, from [t0] on. *)
Fixpoint clock_from (t0 : Q) (evs : list Event) : Prop :=
  match evs with
  | [] => True
  | Http now _ :: rest => t0 <= now /\ clock_from now rest
  | _ :: rest => clock_from t0 rest
  end.

(** The clock reading of the last request, [t0] when there is none. *)
Fixpoint latest (t0 : Q) (evs : list Event) : Q :=
  match evs with
  | [] => t0
  | Http now _ :: rest => latest now rest
  | _ :: rest => latest t0 rest
  end.

(** A JSON value that is null or a number that is not negative. *)
Definition null_or_nonnegative (v : json) : Prop :=
  v = JNull \/ exists q, v = JNum q /\ 0 <= q.

(** The emulator global is unbound and the emulator has received [calls]. *)
Definition unbound_with (calls : list EmuCall) (sys : System) : Prop :=
  pyboy_instance (state sys) = None /\ emulator_calls (state sys) = calls.

(** At most one stop, and none while the thread has not left [run_game]. *)
Definition stops_once (sys : System) : Prop :=
  (stops (emulator_calls (state sys)) <= 1)%nat /\
  (game_thread sys <> Exited -> stops (emulator_calls (state sys)) = 0%nat).

(** PyBoy cannot be constructed. *)
Definition constructor_raises : list EmuCall -> EmuCall -> bool :=
  fun _ c =>
    match c with
    | PyBoy_init _ _ => true
    | _ => false
    end.

(** PyBoy refuses the emulation speed. *)
Definition speed_raises : list EmuCall -> EmuCall -> bool :=
  fun _ c =>
    match c with
    | set_emulation_speed _ => true
    | _ => false
    end.

(** An arrow key going down or up. *)
Definition is_arrow (c : EmuCall) : bool :=
  match c with
  | send_input PRESS_ARROW_UP | send_input PRESS_ARROW_DOWN
  | send_input PRESS_ARROW_LEFT | send_input PRESS_ARROW_RIGHT
  | send_input RELEASE_ARROW_UP | send_input RELEASE_ARROW_DOWN
  | send_input RELEASE_ARROW_LEFT | send_input RELEASE_ARROW_RIGHT => true
  | _ => false
  end.

(** How many arrow events the emulator has received. *)
Definition arrows (calls : list EmuCall) : nat :=
  length (filter is_arrow calls).

Definition same_arrows (s s' : State) : Prop :=
  arrows (emulator_calls s') = arrows (emulator_calls s).

(** Tracking is disabled and the emulator has received no arrow event. *)
Definition disabled_without_arrows (sys : System) : Prop :=
  eye_tracking_enabled (state sys) = false /\
  arrows (emulator_calls (state sys)) = 0%nat.

(** The direction a manual override writes, for a request that is one. *)
Definition override_direction (r : Request) : option (option string) :=
  match r with
  | POST_control (JObj fields) =>
      let action := dict_get "action" JNull fields in
      if py_eq_str action "press" then
        if py_in (dict_get "direction" JNull fields)
                 ["up"; "down"; "left"; "right"]
        then Some (str_of (dict_get "direction" JNull fields))
        else None
      else if py_eq_str action "release" then Some None
      else None
  | _ => None
  end.

(** The direction an event writes, for a GazePoint or a manual override. *)
Definition written_direction (cfg : Config) (ev : Event)
  : option (option string) :=
  match ev with
  | Http _ r =>
      match gaze_direction cfg r with
      | Some d => Some d
      | None => override_direction r
      end
  | _ => None
  end.

(** The direction written last, [d] when nothing was written. *)
Definition last_written (cfg : Config) (d : option string) (evs : list Event)
  : option string :=
  fold_left
    (fun acc ev =>
       match written_direction cfg ev with
       | Some d' => d'
       | None => acc
       end)
    evs d.

(** * Properties *)

(** ** Arithmetic helpers *)

Lemma Qlt_bool_iff (a b : Q) : Qlt_bool a b = true <-> a < b.
Proof. unfold Qlt_bool, Qlt. apply Z.ltb_lt. Qed.



(** ** The classifier on numbers *)

(** On two numbers no exception is raised, and the result is decided by
    the three comparisons of the source. *)
Lemma get_direction_from_coords_num (cfg : Config) (x y : Q) :
  get_direction_from_coords cfg (JNum x) (JNum y) =
  Ok (let dx := x - SCREEN_WIDTH cfg / 2 in
      let dy := y - SCREEN_HEIGHT cfg / 2 in
      if Qlt_bool (Qabs dx) (DEAD_ZONE cfg) && Qlt_bool (Qabs dy) (DEAD_ZONE cfg)
      then None
      else if Qlt_bool (Qabs dy) (Qabs dx)
           then Some (if Qlt_bool 0 dx then "right" else "left")
           else Some (if Qlt_bool 0 dy then "down" else "up")).
Proof.
  unfold get_direction_from_coords, py_sub; cbn [to_number ResultMonad.bind].
  destruct (Qlt_bool (Qabs (x - SCREEN_WIDTH cfg / 2)) (DEAD_ZONE cfg)) eqn:Ex;
    cbn [ResultMonad.bind andb].
  - destruct (Qlt_bool (Qabs (y - SCREEN_HEIGHT cfg / 2)) (DEAD_ZONE cfg));
      [reflexivity |].
    cbv zeta.
    destruct (Qlt_bool (Qabs (y - SCREEN_HEIGHT cfg / 2))
                       (Qabs (x - SCREEN_WIDTH cfg / 2))); reflexivity.
  - cbv zeta.
    destruct (Qlt_bool (Qabs (y - SCREEN_HEIGHT cfg / 2))
                       (Qabs (x - SCREEN_WIDTH cfg / 2))); reflexivity.
Qed.





(** C2: a point whose two offsets from the centre (screenWidth/2,
    screenHeight/2) are both strictly below the dead-zone radius is
    classified as None; on the 1920x1080 screen with radius 100, (960, 540)
    and (960, 541) give None, (1200, 540) gives "right" and (960, 300)
    gives "up". *)
Theorem C2_dead_zone_is_none (cfg : Config) (x y : Q)
  (Hx : Qabs (x - SCREEN_WIDTH cfg / 2) < DEAD_ZONE cfg)
  (Hy : Qabs (y - SCREEN_HEIGHT cfg / 2) < DEAD_ZONE cfg) :
  get_direction_from_coords cfg (JNum x) (JNum y) = Ok None /\
  get_direction_from_coords default_config (JNum 960) (JNum 540) = Ok None /\
  get_direction_from_coords default_config (JNum 960) (JNum 541) = Ok None /\
  get_direction_from_coords default_config (JNum 1200) (JNum 540)
    = Ok (Some "right") /\
  get_direction_from_coords default_config (JNum 960) (JNum 300)
    = Ok (Some "up").
Proof.
  split; [| repeat split; reflexivity].
  rewrite get_direction_from_coords_num. cbv zeta.
  apply Qlt_bool_iff in Hx. apply Qlt_bool_iff in Hy.
  now rewrite Hx, Hy.
Qed.

(** The theorem at (1000, 500), 40 pixels off the centre on both axes. *)
Lemma C2_dead_zone_is_none_witness :
  get_direction_from_coords default_config (JNum 1000) (JNum 500) = Ok None.
Proof.
  apply (C2_dead_zone_is_none default_config 1000 500); reflexivity.
Defined.

(** ** Frame rules for the monad *)

Section FrameRules.

Variable R : State -> State -> Prop.
Hypothesis R_refl : forall s, R s s.
Hypothesis R_trans : forall a b c, R a b -> R b c -> R a c.

Lemma frames_ret {A} (a : A) : frames R (ret a).
Proof. intros s. apply R_refl. Qed.

Lemma frames_gets {A} (f : State -> A) : frames R (gets f).
Proof. intros s. apply R_refl. Qed.

Lemma frames_lift {A} (r : Result A) : frames R (lift r).
Proof. intros s. apply R_refl. Qed.

Lemma frames_bind {A B} (m : M A) (k : A -> M B) :
  frames R m -> (forall a, frames R (k a)) -> frames R (bind m k).
Proof.
  intros Hm Hk s. unfold bind.
  specialize (Hm s). destruct (m s) as [[a | e] s']; cbn [snd] in *.
  - eapply R_trans; [exact Hm | apply Hk].
  - exact Hm.
Qed.

Lemma frames_try_except {A} (m : M A) (h : exn -> M A) :
  frames R m -> (forall e, frames R (h e)) -> frames R (try_except m h).
Proof.
  intros Hm Hh s. unfold try_except.
  specialize (Hm s). destruct (m s) as [[a | e] s']; cbn [snd] in *.
  - exact Hm.
  - eapply R_trans; [exact Hm | apply Hh].
Qed.

Lemma frames_if_eqn {A} (b : bool) (m1 m2 : M A) :
  (b = true -> frames R m1) -> (b = false -> frames R m2) ->
  frames R (if b then m1 else m2).
Proof. destruct b; auto. Qed.

Lemma frames_bind_lift_Ok {A B} (a : A) (k : A -> M B) :
  frames R (k a) -> frames R (bind (lift (Ok a)) k).
Proof. intros Hk s. apply Hk. Qed.

Lemma frames_bind_lift_Raise {A B} (e : exn) (k : A -> M B) :
  frames R (bind (lift (Raise e)) k).
Proof. intros s. apply R_refl. Qed.

Lemma frames_modify (f : State -> State) :
  (forall s, R s (f s)) -> frames R (modify f).
Proof. intros Hf s. apply Hf. Qed.

Lemma frames_call (raises : list EmuCall -> EmuCall -> bool) (c : EmuCall) :
  (forall s, R s (record_call c s)) -> frames R (call raises c).
Proof. intros Hc s. apply Hc. Qed.

End FrameRules.

Lemma same_tracking_refl (s : State) : same_tracking s s.
Proof. repeat split. Qed.

Lemma same_tracking_trans (a b c : State) :
  same_tracking a b -> same_tracking b c -> same_tracking a c.
Proof.
  unfold same_tracking. intros (H1 & H2 & H3) (H4 & H5 & H6).
  repeat split; congruence.
Qed.

Lemma same_globals_refl (s : State) : same_globals s s.
Proof. split; [apply same_tracking_refl | reflexivity]. Qed.

Lemma same_globals_trans (a b c : State) :
  same_globals a b -> same_globals b c -> same_globals a c.
Proof.
  intros [H1 H2] [H3 H4]. split.
  - eapply same_tracking_trans; eassumption.
  - congruence.
Qed.

Lemma same_globals_record_call (c : EmuCall) (s : State) :
  same_globals s (record_call c s).
Proof. repeat split. Qed.

(** One syntax-directed step on a frame condition: the values looked up
    in an object body and the tests that guard each branch are kept. *)
Ltac frame_step refl trans :=
  lazymatch goal with
  | |- frames _ (bind (lift (Ok _)) _) => apply frames_bind_lift_Ok
  | |- frames _ (bind (lift (Raise _)) _) => apply (frames_bind_lift_Raise _ refl)
  | |- frames _ (bind _ _) => apply (frames_bind _ trans); [| intros ?]
  | |- frames _ (try_except _ _) =>
      apply (frames_try_except _ trans); [| intros ?]
  | |- frames _ (ret _) => apply (frames_ret _ refl)
  | |- frames _ (gets _) => apply (frames_gets _ refl)
  | |- frames _ (lift _) => apply (frames_lift _ refl)
  | |- frames _ (match ?p with Some _ => _ | None => _ end) => destruct p
  | |- frames _ (if _ then _ else _) => apply frames_if_eqn; intros ?
  end.

(** Closes a frame condition up to the writes: what is left are the
    [modify] and [call] leaves. *)
Ltac frame_tac refl trans :=
  cbn [py_get]; repeat frame_step refl trans.

(** ** The emulator thread leaves the tracking globals alone *)

Section ThreadFrames.

Variable cfg : Config.
Variable raises : list EmuCall -> EmuCall -> bool.

Lemma run_game_iteration_same_globals :
  frames same_globals (run_game_iteration raises).
Proof.
  unfold run_game_iteration, press_arrow, release_arrow, direction_is.
  frame_tac same_globals_refl same_globals_trans;
    apply frames_call; intros s; apply same_globals_record_call.
Qed.

Lemma run_game_finally_same_globals :
  frames same_globals (run_game_finally raises).
Proof.
  unfold run_game_finally.
  frame_tac same_globals_refl same_globals_trans.
  apply frames_call; intros s; apply same_globals_record_call.
Qed.

Lemma run_game_setup_same_tracking :
  frames same_tracking (run_game_setup cfg raises).
Proof.
  unfold run_game_setup.
  frame_tac same_tracking_refl same_tracking_trans;
    first [apply frames_modify | apply frames_call]; intros s; repeat split.
Qed.

End ThreadFrames.

(** ** Effects of the request handlers *)

Lemma direction_eqb_eq (a b : option string) :
  direction_eqb a b = true <-> a = b.
Proof.
  destruct a as [s |], b as [t |]; cbn [direction_eqb]; split; intros H;
    try discriminate; try reflexivity.
  - apply String.eqb_eq in H. now subst.
  - injection H as ->. apply String.eqb_refl.
Qed.

Lemma direction_eqb_refl (a : option string) : direction_eqb a a = true.
Proof. now apply direction_eqb_eq. Qed.

Lemma py_eq_str_eq (v : json) (s : string) :
  py_eq_str v s = true <-> v = JStr s.
Proof.
  destruct v; cbn [py_eq_str]; split; intros H; try discriminate.
  - apply String.eqb_eq in H. now subst.
  - injection H as ->. apply String.eqb_refl.
Qed.

Lemma is_direction_name (d : Direction) : is_direction (Some (name d)).
Proof. right. now exists d. Qed.

Lemma is_direction_None : is_direction None.
Proof. now left. Qed.

(** A value found in the list of the four names is one of them. *)
Lemma py_in_directions (v : json) :
  py_in v ["up"; "down"; "left"; "right"] = true ->
  exists d, v = JStr (name d).
Proof.
  unfold py_in. cbn [existsb]. rewrite !orb_true_iff, !py_eq_str_eq.
  intros [H | [H | [H | [H | H]]]]; try discriminate H;
    [exists Up | exists Down | exists Left | exists Right]; exact H.
Qed.

(** The classifier only answers None or one of the four names. *)
Lemma get_direction_from_coords_is_direction (cfg : Config) (x y : json)
      (d : option string) :
  get_direction_from_coords cfg x y = Ok d -> is_direction d.
Proof.
  unfold get_direction_from_coords, py_sub.
  destruct (to_number x) as [qx |]; cbn [ResultMonad.bind]; [| discriminate].
  destruct (to_number y) as [qy |]; cbn [ResultMonad.bind].
  - destruct (Qlt_bool (Qabs (qx - SCREEN_WIDTH cfg / 2)) (DEAD_ZONE cfg));
      cbn [ResultMonad.bind];
      [destruct (Qlt_bool (Qabs (qy - SCREEN_HEIGHT cfg / 2)) (DEAD_ZONE cfg)) |];
      try (intros [= <-]; apply is_direction_None);
      (destruct (Qlt_bool (Qabs (qy - SCREEN_HEIGHT cfg / 2))
                          (Qabs (qx - SCREEN_WIDTH cfg / 2)));
       [destruct (Qlt_bool 0 (qx - SCREEN_WIDTH cfg / 2))
       | destruct (Qlt_bool 0 (qy - SCREEN_HEIGHT cfg / 2))];
       intros [= <-];
       [apply (is_direction_name Right) | apply (is_direction_name Left)
       | apply (is_direction_name Down) | apply (is_direction_name Up)]).
  - destruct (Qlt_bool (Qabs (qx - SCREEN_WIDTH cfg / 2)) (DEAD_ZONE cfg));
      cbn [ResultMonad.bind]; discriminate.
Qed.

Section HandlerEffects.

Variable cfg : Config.
Variable raises : list EmuCall -> EmuCall -> bool.

(** A request that carries a GazePoint is answered with the classifier's
    output, which becomes the current direction; the clock is stored
    when that is a change. *)
Lemma receive_eye_data_gaze (now : Q) (fields : list (string * json))
      (s : State) (d : option string) :
  gaze_direction cfg (POST_eye_data (JObj fields)) = Some d ->
  receive_eye_data cfg now (JObj fields) s =
  (Ok (Json200 (JObj [("status", JStr "success");
                      ("direction", json_of_direction d);
                      ("x", dict_get "x" (JNum 0) fields);
                      ("y", dict_get "y" (JNum 0) fields)])),
   if direction_eqb d (current_direction s) then s
   else set_last_eye_update now (set_current_direction d s)).
Proof.
  cbn [gaze_direction]. intros Hg.
  unfold receive_eye_data, try_except, bind, lift, py_get.
  destruct (get_direction_from_coords cfg (dict_get "x" (JNum 0) fields)
                                      (dict_get "y" (JNum 0) fields))
    as [d' |]; [| discriminate].
  injection Hg as ->.
  unfold gets, modify, ret.
  destruct (direction_eqb d (current_direction s)) eqn:E; cbn [negb].
  - apply direction_eqb_eq in E. now rewrite <- E.
  - reflexivity.
Qed.

(** Any other /eye_data request is answered 400 and writes nothing. *)
Lemma receive_eye_data_no_gaze (now : Q) (data : json) (s : State) :
  gaze_direction cfg (POST_eye_data data) = None ->
  exists e, receive_eye_data cfg now data s = (Ok (Json400 e), s).
Proof.
  intros Hg. unfold receive_eye_data, try_except, bind, lift, py_get.
  destruct data; try (now exists AttributeError).
  cbn [gaze_direction] in Hg.
  destruct (get_direction_from_coords cfg (dict_get "x" (JNum 0) fields)
                                      (dict_get "y" (JNum 0) fields))
    as [d' | e]; [discriminate |].
  now exists e.
Qed.

End HandlerEffects.

Lemma same_but_direction_refl (s : State) : same_but_direction s s.
Proof. repeat split. Qed.

Lemma same_but_direction_trans (a b c : State) :
  same_but_direction a b -> same_but_direction b c -> same_but_direction a c.
Proof.
  unfold same_but_direction. intros (H1 & H2 & H3) (H4 & H5 & H6).
  repeat split; congruence.
Qed.

Lemma keeps_direction_valid_refl (s : State) : keeps_direction_valid s s.
Proof. intros H. exact H. Qed.

Lemma keeps_direction_valid_trans (a b c : State) :
  keeps_direction_valid a b -> keeps_direction_valid b c ->
  keeps_direction_valid a c.
Proof. unfold keeps_direction_valid. auto. Qed.

Section ControlEffects.

Variable raises : list EmuCall -> EmuCall -> bool.

(** /control writes no global but [current_direction]. *)
Lemma control_same_but_direction (data : json) :
  frames same_but_direction (control raises data).
Proof.
  unfold control, tap.
  frame_tac same_but_direction_refl same_but_direction_trans;
    first [apply frames_modify | apply frames_call]; intros s; repeat split.
Qed.

(** /control stores one of the four names, or None. *)
Lemma control_keeps_direction_valid (data : json) :
  frames keeps_direction_valid (control raises data).
Proof.
  unfold control, tap.
  frame_tac keeps_direction_valid_refl keeps_direction_valid_trans;
    try (apply frames_call; intros s Hs; exact Hs);
    apply frames_modify; intros s _;
    cbn [set_current_direction current_direction].
  - match goal with
    | H : py_in ?v _ = true |- _ =>
        destruct (py_in_directions v H) as [d ->]
    end.
    apply is_direction_name.
  - apply is_direction_None.
Qed.

(** A /control request that is no manual override writes no global. *)
Lemma control_no_override (data : json) :
  overrides (POST_control data) = false ->
  frames same_globals (control raises data).
Proof.
  intros Hov. unfold control, tap. destruct data;
    try (frame_tac same_globals_refl same_globals_trans; fail).
  cbn [overrides] in Hov. apply orb_false_iff in Hov.
  destruct Hov as [Hpress Hrelease].
  frame_tac same_globals_refl same_globals_trans;
    try (apply frames_call; intros ?; apply same_globals_record_call).
  - match goal with
    | H1 : py_eq_str _ "press" = true, H2 : py_in _ _ = true |- _ =>
        rewrite H1, H2 in Hpress
    end.
    discriminate Hpress.
  - congruence.
Qed.

End ControlEffects.

(** ** Steps of the process *)

Section ProcessFacts.

Variable cfg : Config.
Variable raises : list EmuCall -> EmuCall -> bool.

Lemma run_cons (sys : System) (ev : Event) (evs : list Event) :
  run cfg raises sys (ev :: evs) = run cfg raises (step cfg raises sys ev) evs.
Proof. reflexivity. Qed.

Lemma step_http_state (sys : System) (now : Q) (r : Request) :
  state (step cfg raises sys (Http now r))
  = snd (handle cfg raises now r (state sys)).
Proof. unfold step. destruct (game_thread sys); reflexivity. Qed.

(** A property that holds at the start and that every step keeps holds
    at the end of every run. *)
Lemma run_invariant (P : System -> Prop) :
  (forall sys ev, P sys -> P (step cfg raises sys ev)) ->
  forall evs sys, P sys -> P (run cfg raises sys evs).
Proof.
  intros Hstep evs. induction evs as [| ev evs IH]; intros sys Hsys.
  - exact Hsys.
  - rewrite run_cons. apply IH. now apply Hstep.
Qed.

(** The [try] block: what its body and [finally] both frame is framed. *)
Lemma in_try_frames (R : State -> State -> Prop) (body : M unit) :
  (forall a b c, R a b -> R b c -> R a c) ->
  frames R body -> frames R (run_game_finally raises) ->
  forall s, R s (state (in_try raises body s)).
Proof.
  intros Htrans Hbody Hfinally s. unfold in_try.
  specialize (Hbody s). destruct (body s) as [[[] | e] s']; cbn [snd state] in *.
  - exact Hbody.
  - eapply Htrans; [exact Hbody | apply Hfinally].
Qed.

Lemma same_globals_same_tracking (s s' : State) :
  same_globals s s' -> same_tracking s s'.
Proof. now intros [H _]. Qed.

(** The emulator thread never writes a tracking global. *)
Lemma step_game_same_tracking (sys : System) (ev : Event) :
  is_game_event ev = true ->
  same_tracking (state sys) (state (step cfg raises sys ev)).
Proof.
  intros Hev. destruct ev; try discriminate Hev; unfold step;
    destruct (game_thread sys); try apply same_tracking_refl;
    apply in_try_frames; try exact same_tracking_trans;
    try apply run_game_setup_same_tracking;
    intros s; apply same_globals_same_tracking;
    first [apply run_game_iteration_same_globals
          | apply run_game_finally_same_globals].
Qed.

(** A request that neither carries a GazePoint nor overrides leaves
    the current direction as it was. *)
Lemma handle_quiet (now : Q) (r : Request) (s : State) :
  gaze_direction cfg r = None -> overrides r = false ->
  current_direction (snd (handle cfg raises now r s)) = current_direction s.
Proof.
  intros Hg Hov. destruct r as [| data | data | |]; cbn [handle].
  - reflexivity.
  - destruct (receive_eye_data_no_gaze cfg now data s Hg) as [e ->].
    reflexivity.
  - apply (control_no_override raises data Hov s).
  - reflexivity.
  - reflexivity.
Qed.

(** Only /eye_data writes [last_eye_update]. *)
Lemma handle_last_eye_update (now : Q) (r : Request) (s : State) :
  is_eye_data (Http now r) = false ->
  last_eye_update (snd (handle cfg raises now r s)) = last_eye_update s.
Proof.
  intros Hr. destruct r as [| data | data | |]; cbn [handle];
    try reflexivity.
  - discriminate Hr.
  - apply (control_same_but_direction raises data s).
Qed.

(** What a request with a GazePoint does to the two globals it writes. *)
Lemma handle_gaze (now : Q) (r : Request) (s : State) (d : option string) :
  gaze_direction cfg r = Some d ->
  current_direction (snd (handle cfg raises now r s)) = d /\
  last_eye_update (snd (handle cfg raises now r s))
  = (if direction_eqb d (current_direction s) then last_eye_update s else now).
Proof.
  intros Hg. destruct r as [| data | data | |]; try discriminate Hg.
  destruct data; try discriminate Hg.
  cbn [handle]. rewrite (receive_eye_data_gaze cfg now fields s d Hg).
  cbn [snd].
  destruct (direction_eqb d (current_direction s)) eqn:E.
  - apply direction_eqb_eq in E. now split.
  - split; reflexivity.
Qed.

(** Every step keeps the current direction None or one of the four
    names. *)
Lemma step_keeps_direction_valid (sys : System) (ev : Event) :
  is_direction (current_direction (state sys)) ->
  is_direction (current_direction (state (step cfg raises sys ev))).
Proof.
  intros Hd. destruct ev as [| | now r].
  - now rewrite (proj1 (step_game_same_tracking sys GameStart eq_refl)).
  - now rewrite (proj1 (step_game_same_tracking sys GameIteration eq_refl)).
  - rewrite step_http_state.
    destruct (gaze_direction cfg r) as [d |] eqn:Hg.
    + rewrite (proj1 (handle_gaze now r (state sys) d Hg)).
      destruct r as [| data | data | |]; try discriminate Hg.
      destruct data; try discriminate Hg. cbn [gaze_direction] in Hg.
      destruct (get_direction_from_coords cfg (dict_get "x" (JNum 0) fields)
                                          (dict_get "y" (JNum 0) fields))
        as [d' |] eqn:Hc; [| discriminate Hg].
      injection Hg as <-.
      eapply get_direction_from_coords_is_direction. exact Hc.
    + destruct r as [| data | data | |]; cbn [handle]; try exact Hd.
      * destruct (receive_eye_data_no_gaze cfg now data (state sys) Hg)
          as [e ->].
        exact Hd.
      * apply (control_keeps_direction_valid raises data (state sys) Hd).
Qed.

Lemma reachable_direction_valid (sys : System) :
  reachable cfg raises sys -> is_direction (current_direction (state sys)).
Proof.
  intros [evs ->].
  apply (run_invariant
           (fun sys => is_direction (current_direction (state sys)))).
  - apply step_keeps_direction_valid.
  - apply is_direction_None.
Qed.

End ProcessFacts.

(** ** The current direction and the most recent GazePoint *)

Section LastGaze.

Variable cfg : Config.
Variable raises : list EmuCall -> EmuCall -> bool.

Lemma direction_follows_gaze (evs : list Event) :
  forall (sys : System) (acc : option (option string)) (flag : bool),
    (flag = false -> current_direction (state sys) = direction_of acc) ->
    fold_left (override_acc cfg) evs flag = false ->
    current_direction (state (run cfg raises sys evs))
    = direction_of (fold_left (gaze_acc cfg) evs acc).
Proof.
  induction evs as [| ev evs IH]; intros sys acc flag Hinv Hflag.
  - cbn in *. now apply Hinv.
  - rewrite run_cons. cbn [fold_left] in *.
    apply (IH _ _ (override_acc cfg flag ev)); [| exact Hflag].
    intros Hstep. destruct ev as [| | now r].
    + rewrite (proj1 (step_game_same_tracking cfg raises sys GameStart eq_refl)).
      now apply Hinv.
    + rewrite (proj1 (step_game_same_tracking cfg raises sys GameIteration eq_refl)).
      now apply Hinv.
    + rewrite step_http_state. cbn [override_acc gaze_acc] in *.
      destruct (gaze_direction cfg r) as [d |] eqn:Hg.
      * apply (handle_gaze cfg raises now r (state sys) d Hg).
      * apply orb_false_iff in Hstep. destruct Hstep as [-> Hov].
        rewrite (handle_quiet cfg raises now r (state sys) Hg Hov).
        now apply Hinv.
Qed.

End LastGaze.

(** C3, as the specification states it, fails: after a gaze at the centre
    of the screen (classified None) and a manual press of "up", the current
    direction is "up", not the classifier's output for the last GazePoint. *)
Lemma C3_override_breaks_invariant :
  direction_of_last_gaze default_config gaze_then_press = None /\
  current_direction
    (state (run default_config never_raises initial_system gaze_then_press))
  = Some "up" /\
  current_direction
    (state (run default_config never_raises initial_system gaze_then_press))
  <> direction_of_last_gaze default_config gaze_then_press.
Proof.
  repeat split. discriminate.
Qed.

(** C3, amended: after every sequence of events in which no manual override
    has been received since the most recent GazePoint (since the start, when
    none was received), the current direction is the classifier's output for
    the most recent GazePoint, and None when none was received; after POST
    /eye_data with x = 1200 and y = 540, GET /status reports the current
    direction "right". *)
Theorem C3_direction_is_last_gaze_unless_overridden
        (cfg : Config) (raises : list EmuCall -> EmuCall -> bool)
        (evs : list Event) (t now : Q)
        (Hquiet : overridden_since_gaze cfg evs = false) :
  current_direction (state (run cfg raises initial_system evs))
  = direction_of_last_gaze cfg evs /\
  field "current_direction"
        (response (status now)
                  (state (run default_config raises initial_system
                              [Http t (POST_eye_data (gaze_body 1200 540))])))
  = JStr "right".
Proof.
  split.
  - apply (direction_follows_gaze cfg raises evs initial_system None false).
    + reflexivity.
    + exact Hquiet.
  - reflexivity.
Qed.

(** The theorem on a trace where the override comes before the last gaze. *)
Lemma C3_direction_is_last_gaze_unless_overridden_witness :
  current_direction
    (state (run default_config never_raises initial_system
                [Http 1 (POST_control (press_body "up"));
                 GameStart;
                 Http 2 (POST_eye_data (gaze_body 960 900));
                 GameIteration;
                 Http 3 POST_toggle_eye_tracking]))
  = Some "down".
Proof.
  apply (C3_direction_is_last_gaze_unless_overridden
           default_config never_raises
           [Http 1 (POST_control (press_body "up"));
            GameStart;
            Http 2 (POST_eye_data (gaze_body 960 900));
            GameIteration;
            Http 3 POST_toggle_eye_tracking] 0 0).
  reflexivity.
Defined.

(** ** The time of the last change made by /eye_data *)

Section LastUpdate.

Variable cfg : Config.
Variable raises : list EmuCall -> EmuCall -> bool.

Lemma last_eye_update_follows_eye_data (evs : list Event) :
  forall (sys : System) (acc : option Q),
    Forall clock_nonzero evs ->
    last_eye_update (state sys) = stored_time acc ->
    (forall t, acc = Some t -> ~ t == 0) ->
    let acc' := last_change cfg raises is_eye_data sys evs acc in
    last_eye_update (state (run cfg raises sys evs)) = stored_time acc' /\
    (forall t, acc' = Some t -> ~ t == 0).
Proof.
  induction evs as [| ev evs IH]; intros sys acc Hclock Hlast Hacc.
  - cbn. now split.
  - rewrite run_cons. cbn [last_change]. cbv zeta.
    inversion Hclock as [| ? ? Hnow Hrest]; subst.
    apply IH; [exact Hrest | |]; destruct ev as [| | now r].
    + rewrite (proj1 (proj2 (step_game_same_tracking cfg raises sys GameStart eq_refl))).
      exact Hlast.
    + rewrite (proj1 (proj2 (step_game_same_tracking cfg raises sys GameIteration eq_refl))).
      exact Hlast.
    + rewrite step_http_state.
      destruct (is_eye_data (Http now r)) eqn:Heye; cbn [andb].
      * destruct r as [| data | data | |]; try discriminate Heye.
        destruct (gaze_direction cfg (POST_eye_data data)) as [d |] eqn:Hg.
        -- destruct (handle_gaze cfg raises now _ (state sys) d Hg) as [Hd Ht].
           rewrite Hd, Ht.
           destruct (direction_eqb d (current_direction (state sys)));
             cbn [negb stored_time]; [exact Hlast | reflexivity].
        -- cbn [handle].
           destruct (receive_eye_data_no_gaze cfg now data (state sys) Hg)
             as [e ->].
           cbn [snd]. rewrite direction_eqb_refl. exact Hlast.
      * rewrite (handle_last_eye_update cfg raises now r (state sys) Heye).
        exact Hlast.
    + exact Hacc.
    + exact Hacc.
    + destruct (is_eye_data (Http now r)
                && negb (direction_eqb
                           (current_direction
                              (state (step cfg raises sys (Http now r))))
                           (current_direction (state sys)))).
      * intros t [= <-]. exact Hnow.
      * exact Hacc.
Qed.

End LastUpdate.

(** C8, as the specification states it, fails: a manual press at clock
    time 5 changes the current direction, and GET /status at clock time 7
    reports last_update null, not the 2 seconds elapsed since. *)
Lemma C8_manual_change_is_not_timed :
  current_direction (state initial_system) = None /\
  current_direction
    (state (run default_config never_raises initial_system press_at_5))
  = Some "up" /\
  last_change default_config never_raises any_event initial_system press_at_5 None
  = Some 5 /\
  field "last_update"
        (response (status 7)
                  (state (run default_config never_raises initial_system
                              press_at_5)))
  = JNull /\
  field "last_update"
        (response (status 7)
                  (state (run default_config never_raises initial_system
                              press_at_5)))
  <> seconds_since 7
       (last_change default_config never_raises any_event initial_system
                    press_at_5 None).
Proof.
  repeat split. discriminate.
Qed.

(** C8, amended: GET /status returns last_update equal to the number of
    seconds elapsed since the most recent POST /eye_data request that changed
    the current direction, and null if no /eye_data request has changed it
    since process start (the clock never reading zero). *)
Theorem C8_last_update_times_eye_data_changes
        (cfg : Config) (raises : list EmuCall -> EmuCall -> bool)
        (evs : list Event) (now : Q)
        (Hclock : Forall clock_nonzero evs) :
  field "last_update"
        (response (status now) (state (run cfg raises initial_system evs)))
  = seconds_since now
      (last_change cfg raises is_eye_data initial_system evs None).
Proof.
  destruct (last_eye_update_follows_eye_data cfg raises evs initial_system None
              Hclock eq_refl) as [Hlast Hnz].
  { discriminate. }
  cbv zeta in Hlast, Hnz.
  unfold response, status, bind, gets, ret. cbn [fst field dict_get String.eqb].
  cbn. rewrite Hlast.
  destruct (last_change cfg raises is_eye_data initial_system evs None)
    as [t |]; cbn [stored_time seconds_since].
  - destruct (Qeq_bool t 0) eqn:E; [| reflexivity].
    apply Qeq_bool_iff in E. now destruct (Hnz t eq_refl).
  - reflexivity.
Qed.

(** The theorem on a trace with two gaze points to the right of the centre,
    of which only the first changes the direction. *)
Lemma C8_last_update_times_eye_data_changes_witness :
  field "last_update"
        (response (status 25)
                  (state (run default_config never_raises initial_system
                              [Http 10 (POST_eye_data (gaze_body 1200 540));
                               Http 12 (POST_eye_data (gaze_body 1300 540));
                               Http 13 POST_toggle_eye_tracking])))
  = JNum (25 - 10).
Proof.
  apply (C8_last_update_times_eye_data_changes
           default_config never_raises
           [Http 10 (POST_eye_data (gaze_body 1200 540));
            Http 12 (POST_eye_data (gaze_body 1300 540));
            Http 13 POST_toggle_eye_tracking] 25).
  repeat constructor; intros H; vm_compute in H; discriminate H.
Defined.

(** ** The toggle *)

(** C6: toggling twice gives the tracking flag the value it had; one toggle
    from the initial state answers eye_tracking_enabled = true, and so does a
    GET /status after it. *)
Theorem C6_toggle_twice_restores (s : State) (now : Q) :
  eye_tracking_enabled
    (snd (toggle_eye_tracking (snd (toggle_eye_tracking s))))
  = eye_tracking_enabled s /\
  response toggle_eye_tracking initial_state
  = Json200 (JObj [("status", JStr "success");
                   ("eye_tracking_enabled", JBool true)]) /\
  field "eye_tracking_enabled"
        (response (status now) (snd (toggle_eye_tracking initial_state)))
  = JBool true.
Proof.
  repeat split. cbn. apply negb_involutive.
Qed.

(** C10: the toggle writes the tracking flag and nothing else: the current
    direction and the time of the last update are what they were, and so are
    the emulator global and the calls the emulator has received. *)
Theorem C10_toggle_writes_only_the_flag (s : State) :
  current_direction (snd (toggle_eye_tracking s)) = current_direction s /\
  last_eye_update (snd (toggle_eye_tracking s)) = last_eye_update s /\
  pyboy_instance (snd (toggle_eye_tracking s)) = pyboy_instance s /\
  emulator_calls (snd (toggle_eye_tracking s)) = emulator_calls s /\
  eye_tracking_enabled (snd (toggle_eye_tracking s))
  = negb (eye_tracking_enabled s).
Proof.
  repeat split.
Qed.

(** ** Lenient input on /control *)




(** ** Missing coordinates *)




Lemma receive_eye_data_current_direction (cfg : Config) (now : Q)
      (fields : list (string * json)) (s : State) (d : option string) :
  gaze_direction cfg (POST_eye_data (JObj fields)) = Some d ->
  current_direction (snd (receive_eye_data cfg now (JObj fields) s)) = d.
Proof.
  intros Hg. rewrite (receive_eye_data_gaze cfg now fields s d Hg). cbn [snd].
  destruct (direction_eqb d (current_direction s)) eqn:E.
  - now apply direction_eqb_eq in E.
  - reflexivity.
Qed.



(** ** One pass through the loop of [run_game] *)

Section LoopIteration.

Variable raises : list EmuCall -> EmuCall -> bool.


(** [release_arrow] reads the global again: with no direction held when
    it runs, it makes no call. *)
Lemma release_arrow_none (s : State) :
  current_direction s = None -> release_arrow raises s = (Ok tt, s).
Proof.
  destruct s as [p cd last enabled calls]. cbn [current_direction].
  intros ->. reflexivity.
Qed.

(** With tracking disabled, or no direction held, a pass makes one
    call: the tick. *)
Lemma run_game_iteration_idle (s : State) :
  eye_tracking_enabled s = false \/ current_direction s = None ->
  emulator_calls (snd (run_game_iteration raises s))
  = (emulator_calls s ++ [tick])%list.
Proof.
  destruct s as [p cd last enabled calls].
  cbn [eye_tracking_enabled current_direction emulator_calls].
  unfold run_game_iteration, bind, gets, ret, call.
  intros [-> | ->]; [| destruct enabled]; reflexivity.
Qed.

End LoopIteration.



(** ** An exception in the loop of [run_game] *)

Section LoopException.

Variable cfg : Config.
Variable raises : list EmuCall -> EmuCall -> bool.

(** When lines 51-58 complete, the emulator global is bound. *)
Lemma run_game_setup_binds (s : State) :
  fst (run_game_setup cfg raises s) = Ok tt ->
  pyboy_instance (snd (run_game_setup cfg raises s)) = Some PyBoyObject.
Proof.
  unfold run_game_setup, bind, call, modify. cbn.
  destruct (raises (emulator_calls s)
                   (PyBoy_init (ROM_PATH cfg) (window_type cfg)));
    cbn; [discriminate | reflexivity].
Qed.

(** No request handler writes the emulator global. *)
Lemma handle_pyboy_instance (now : Q) (r : Request) (s : State) :
  pyboy_instance (snd (handle cfg raises now r s)) = pyboy_instance s.
Proof.
  destruct r as [| data | data | |]; cbn [handle]; try reflexivity.
  - destruct (gaze_direction cfg (POST_eye_data data)) as [d |] eqn:Hg.
    + destruct data; try discriminate Hg.
      rewrite (receive_eye_data_gaze cfg now fields s d Hg). cbn [snd].
      destruct (direction_eqb d (current_direction s)); reflexivity.
    + destruct (receive_eye_data_no_gaze cfg now data s Hg) as [e ->].
      reflexivity.
  - apply (control_same_but_direction raises data s).
Qed.

Lemma step_bound_while_looping (sys : System) (ev : Event) :
  bound_while_looping sys -> bound_while_looping (step cfg raises sys ev).
Proof.
  unfold bound_while_looping. intros Hsys.
  destruct ev as [| | now r]; unfold step.
  - destruct (game_thread sys) eqn:Ht;
      try (intros Hl; first [congruence | now apply Hsys]).
    unfold in_try.
    pose proof (run_game_setup_binds (state sys)) as Hbind.
    destruct (run_game_setup cfg raises (state sys)) as [[[] | e] s'];
      cbn [game_thread state fst snd] in *.
    + intros _. now apply Hbind.
    + discriminate.
  - destruct (game_thread sys) eqn:Ht;
      try (intros Hl; first [congruence | now apply Hsys]).
    unfold in_try.
    pose proof (run_game_iteration_same_globals raises (state sys)) as [_ Hp].
    destruct (run_game_iteration raises (state sys)) as [[[] | e] s'];
      cbn [game_thread state fst snd] in *.
    + intros _. rewrite Hp. now apply Hsys.
    + discriminate.
  - cbn [game_thread state]. intros Ht.
    rewrite handle_pyboy_instance. now apply Hsys.
Qed.

Lemma reachable_bound_while_looping (sys : System) :
  reachable cfg raises sys -> bound_while_looping sys.
Proof.
  intros [evs ->]. apply (run_invariant cfg raises bound_while_looping).
  - apply step_bound_while_looping.
  - discriminate.
Qed.

(** After the thread has left [run_game] nothing unbinds the global. *)
Lemma step_exited_still_bound (sys : System) (ev : Event) :
  exited_still_bound sys -> exited_still_bound (step cfg raises sys ev).
Proof.
  intros [Ht Hp]. destruct ev as [| | now r]; unfold step; rewrite Ht.
  - now split.
  - now split.
  - split; [reflexivity |]. cbn [state]. now rewrite handle_pyboy_instance.
Qed.

End LoopException.

(** /status reports game_running = true whenever the global is bound. *)
Lemma status_game_running (now : Q) (s : State) :
  pyboy_instance s = Some PyBoyObject ->
  field "game_running" (response (status now) s) = JBool true.
Proof.
  intros Hs. unfold response, status, bind, gets, ret. cbn. now rewrite Hs.
Qed.

(** C5 against the code: when a call of the emulator raises during a pass
    through the loop, the thread leaves [run_game] and the last call the
    emulator receives from it is [stop]; but the emulator global stays
    bound, so every later GET /status, whatever requests are served in
    between, reports game_running = true, where the specification says
    false. *)
Theorem C5_game_running_stays_true_after_loop_exception
        (cfg : Config) (raises : list EmuCall -> EmuCall -> bool)
        (sys : System) (e : exn) (evs : list Event) (now : Q)
        (Hreach : reachable cfg raises sys)
        (Hloop : game_thread sys = Looping)
        (Hraise : fst (run_game_iteration raises (state sys)) = Raise e) :
  game_thread (step cfg raises sys GameIteration) = Exited /\
  emulator_calls (state (step cfg raises sys GameIteration))
  = (emulator_calls (snd (run_game_iteration raises (state sys)))
     ++ [stop])%list /\
  game_thread (run cfg raises (step cfg raises sys GameIteration) evs)
  = Exited /\
  field "game_running"
        (response (status now)
                  (state (run cfg raises (step cfg raises sys GameIteration)
                              evs)))
  = JBool true.
Proof.
  pose proof (reachable_bound_while_looping cfg raises sys Hreach Hloop)
    as Hbound.
  pose proof (run_game_iteration_same_globals raises (state sys)) as [_ Hp].
  assert (Hstep : step cfg raises sys GameIteration
                  = {| state := record_call
                                  stop
                                  (snd (run_game_iteration raises (state sys)));
                       game_thread := Exited |}).
  { unfold step. rewrite Hloop. unfold in_try.
    revert Hraise Hp.
    destruct (run_game_iteration raises (state sys)) as [[[] | e'] s'];
      cbn [fst snd]; intros Hraise Hp; [discriminate Hraise |].
    unfold run_game_finally, bind, gets, call. cbn.
    rewrite Hp, Hbound. reflexivity. }
  rewrite Hstep. split; [reflexivity |]. split; [reflexivity |].
  assert (Hlater : exited_still_bound
                     (run cfg raises
                          {| state := record_call
                                        stop
                                        (snd (run_game_iteration raises (state sys)));
                             game_thread := Exited |} evs)).
  { apply (run_invariant cfg raises exited_still_bound).
    - apply step_exited_still_bound.
    - split; [reflexivity |].
      change (pyboy_instance (snd (run_game_iteration raises (state sys)))
              = Some PyBoyObject).
      now rewrite Hp. }
  destruct Hlater as [Hthread Hbound'].
  split; [exact Hthread |].
  now apply status_game_running.
Qed.

(** The theorem on the failing run: the emulator starts, its first tick
    raises, then the button "a" is requested and /status is asked. *)
Lemma C5_game_running_stays_true_after_loop_exception_witness :
  emulator_calls
    (state (run default_config tick_raises initial_system
                [GameStart; GameIteration]))
  = [PyBoy_init "pokemon.gb" "SDL2"; set_emulation_speed 1; tick; stop] /\
  field "game_running"
        (response (status 9)
                  (state (run default_config tick_raises initial_system
                              [GameStart; GameIteration;
                               Http 3 (POST_control
                                         (JObj [("action", JStr "button");
                                                ("button", JStr "a")]))])))
  = JBool true.
Proof.
  destruct (C5_game_running_stays_true_after_loop_exception
              default_config tick_raises
              (run default_config tick_raises initial_system [GameStart])
              EmulatorError
              [Http 3 (POST_control (JObj [("action", JStr "button");
                                           ("button", JStr "a")]))]
              9)
    as (_ & Hcalls & _ & Hstatus).
  - exists [GameStart]. reflexivity.
  - reflexivity.
  - reflexivity.
  - split; [exact Hcalls | exact Hstatus].
Defined.

(** * Further properties of the code *)

(** ** The classifier *)




(** X3: a body that is not a JSON object (null, a number, a string, a
    list) is answered 400 by /eye_data and by /control, which then write no
    global and make no emulator call. *)
Theorem non_object_body_is_rejected
        (cfg : Config) (raises : list EmuCall -> EmuCall -> bool)
        (now : Q) (data : json) (s : State)
        (Hbody : forall fields, data <> JObj fields) :
  receive_eye_data cfg now data s = (Ok (Json400 AttributeError), s) /\
  control raises data s = (Ok (Json400 AttributeError), s).
Proof.
  destruct data; try (split; reflexivity).
  now destruct (Hbody fields).
Qed.

Lemma non_object_body_is_rejected_witness :
  control never_raises (JArr [JStr "press"; JStr "up"]) initial_state
  = (Ok (Json400 AttributeError), initial_state).
Proof.
  apply (non_object_body_is_rejected
           default_config never_raises 0 (JArr [JStr "press"; JStr "up"])
           initial_state).
  discriminate.
Defined.

(** ** /eye_data *)

(** X4: sending the same body to /eye_data a second time changes nothing:
    the answer is the same and the globals, the time of the last update
    included, are those the first request left. *)
Theorem receive_eye_data_twice (cfg : Config) (now1 now2 : Q) (data : json)
        (s : State) :
  receive_eye_data cfg now2 data (snd (receive_eye_data cfg now1 data s))
  = receive_eye_data cfg now1 data s.
Proof.
  destruct data; try reflexivity.
  destruct (gaze_direction cfg (POST_eye_data (JObj fields))) as [d |] eqn:Hg.
  - rewrite !(receive_eye_data_gaze cfg _ fields _ d Hg). cbn [snd].
    destruct (direction_eqb d (current_direction s)) eqn:E.
    + now rewrite E.
    + cbn [current_direction set_last_eye_update set_current_direction].
      now rewrite direction_eqb_refl.
  - destruct (receive_eye_data_no_gaze cfg now1 _ s Hg) as [e He].
    rewrite He. cbn [snd].
    unfold receive_eye_data, try_except, bind, lift, py_get in *.
    cbn [gaze_direction] in Hg.
    destruct (get_direction_from_coords cfg (dict_get "x" (JNum 0) fields)
                                        (dict_get "y" (JNum 0) fields));
      [discriminate Hg | exact He].
Qed.

(** X5: when /eye_data answers 200, the direction in its answer is the
    current direction that a /status asked next reports, and the x and y in
    its answer are the values it read from the body. *)
Theorem eye_data_answer_agrees_with_status
        (cfg : Config) (now later : Q) (fields : list (string * json))
        (s : State) (body : json)
        (Hok : response (receive_eye_data cfg now (JObj fields)) s
               = Json200 body) :
  field "direction" (Json200 body)
  = field "current_direction"
          (response (status later)
                    (snd (receive_eye_data cfg now (JObj fields) s))) /\
  field "x" (Json200 body) = dict_get "x" (JNum 0) fields /\
  field "y" (Json200 body) = dict_get "y" (JNum 0) fields /\
  field "status" (Json200 body) = JStr "success".
Proof.
  destruct (gaze_direction cfg (POST_eye_data (JObj fields))) as [d |] eqn:Hg.
  - pose proof (receive_eye_data_current_direction cfg now fields s d Hg) as Hd.
    unfold response in Hok.
    rewrite (receive_eye_data_gaze cfg now fields s d Hg) in Hok.
    cbn [fst] in Hok. injection Hok as <-.
    unfold response, status, bind, gets, ret. cbn. rewrite Hd.
    repeat split.
  - destruct (receive_eye_data_no_gaze cfg now _ s Hg) as [e He].
    unfold response in Hok. rewrite He in Hok. discriminate Hok.
Qed.

Lemma eye_data_answer_agrees_with_status_witness :
  field "direction"
        (Json200 (JObj [("status", JStr "success"); ("direction", JStr "up");
                        ("x", JNum 960); ("y", JBool true)]))
  = field "current_direction"
          (response (status 8)
                    (snd (receive_eye_data
                            default_config 7
                            (JObj [("x", JNum 960); ("y", JBool true)])
                            initial_state))).
Proof.
  apply (eye_data_answer_agrees_with_status
           default_config 7 8 [("x", JNum 960); ("y", JBool true)]
           initial_state).
  reflexivity.
Defined.

(** X6: in every state the process can reach, the current direction that
    /status reports is null or one of "up", "down", "left", "right". *)
Theorem status_reports_a_direction
        (cfg : Config) (raises : list EmuCall -> EmuCall -> bool)
        (sys : System) (now : Q)
        (Hreach : reachable cfg raises sys) :
  In (field "current_direction" (response (status now) (state sys)))
     [JNull; JStr "up"; JStr "down"; JStr "left"; JStr "right"].
Proof.
  unfold response, status, bind, gets, ret. cbn [fst field dict_get].
  cbn.
  destruct (reachable_direction_valid cfg raises sys Hreach) as [-> | [d ->]].
  - now left.
  - right. destruct d; cbn; auto.
Qed.

Lemma status_reports_a_direction_witness :
  In (field "current_direction"
            (response (status 3)
                      (state (run default_config never_raises initial_system
                                  gaze_then_press))))
     [JNull; JStr "up"; JStr "down"; JStr "left"; JStr "right"].
Proof.
  apply (status_reports_a_direction
           default_config never_raises
           (run default_config never_raises initial_system gaze_then_press) 3).
  exists gaze_then_press. reflexivity.
Defined.

(** ** The emulator global and the handlers *)

Lemma control_unbound (raises : list EmuCall -> EmuCall -> bool) (data : json)
      (s : State) :
  pyboy_instance s = None ->
  emulator_calls (snd (control raises data s)) = emulator_calls s.
Proof.
  intros Hnone. destruct data; try reflexivity.
  unfold control, try_except, bind, lift, py_get, gets, modify, ret.
  repeat (match goal with
          | |- context [if ?b then _ else _] => destruct b
          end; cbn [snd]);
    try discriminate Hnone; reflexivity.
Qed.

Lemma handle_unbound (cfg : Config) (raises : list EmuCall -> EmuCall -> bool)
      (now : Q) (r : Request) (s : State) :
  pyboy_instance s = None ->
  emulator_calls (snd (handle cfg raises now r s)) = emulator_calls s.
Proof.
  intros Hnone. destruct r as [| data | data | |]; cbn [handle];
    try reflexivity.
  - destruct (gaze_direction cfg (POST_eye_data data)) as [d |] eqn:Hg.
    + destruct data; try discriminate Hg.
      rewrite (receive_eye_data_gaze cfg now fields s d Hg). cbn [snd].
      destruct (direction_eqb d (current_direction s)); reflexivity.
    + destruct (receive_eye_data_no_gaze cfg now data s Hg) as [e ->].
      reflexivity.
  - now apply control_unbound.
Qed.

Lemma step_http_unbound (cfg : Config)
      (raises : list EmuCall -> EmuCall -> bool) (calls : list EmuCall)
      (sys : System) (now : Q) (r : Request) :
  unbound_with calls sys ->
  unbound_with calls (step cfg raises sys (Http now r)).
Proof.
  intros [Hp Hc]. unfold unbound_with. rewrite step_http_state.
  rewrite handle_pyboy_instance, handle_unbound by exact Hp. now split.
Qed.

Lemma status_game_not_running (now : Q) (s : State) :
  pyboy_instance s = None ->
  field "game_running" (response (status now) s) = JBool false.
Proof.
  intros Hs. unfold response, status, bind, gets, ret. cbn. now rewrite Hs.
Qed.

(** X7: as long as the emulator thread has not been started, no request
    handler binds the emulator global or calls the emulator, whatever the
    requests (button requests included), and /status reports game_running =
    false. *)
Theorem handlers_alone_never_reach_the_emulator
        (cfg : Config) (raises : list EmuCall -> EmuCall -> bool)
        (evs : list Event) (now : Q)
        (Hnostart : Forall (fun ev => ev <> GameStart) evs) :
  pyboy_instance (state (run cfg raises initial_system evs)) = None /\
  emulator_calls (state (run cfg raises initial_system evs)) = [] /\
  game_thread (run cfg raises initial_system evs) = NotStarted /\
  field "game_running"
        (response (status now) (state (run cfg raises initial_system evs)))
  = JBool false.
Proof.
  assert (Hgen : forall sys,
             unbound_with [] sys -> game_thread sys = NotStarted ->
             unbound_with [] (run cfg raises sys evs) /\
             game_thread (run cfg raises sys evs) = NotStarted).
  { induction Hnostart as [| ev evs Hev _ IH]; intros sys Hu Ht.
    - now split.
    - rewrite run_cons. destruct ev as [| | t r].
      + now destruct Hev.
      + apply IH; unfold step; rewrite Ht; assumption.
      + apply IH.
        * now apply step_http_unbound.
        * unfold step. now rewrite Ht. }
  destruct (Hgen initial_system) as [[Hp Hc] Ht].
  { unfold unbound_with. split; reflexivity. }
  { reflexivity. }
  repeat split; try assumption.
  now apply status_game_not_running.
Qed.

Lemma handlers_alone_never_reach_the_emulator_witness :
  emulator_calls
    (state (run default_config tick_raises initial_system
                [Http 1 (POST_control (button_body "a"));
                 GameIteration;
                 Http 2 POST_toggle_eye_tracking;
                 Http 3 (POST_control (button_body "start"))]))
  = [].
Proof.
  apply (handlers_alone_never_reach_the_emulator
           default_config tick_raises
           [Http 1 (POST_control (button_body "a"));
            GameIteration;
            Http 2 POST_toggle_eye_tracking;
            Http 3 (POST_control (button_body "start"))] 0).
  repeat constructor; discriminate.
Defined.

Lemma step_exited_unbound (cfg : Config)
      (raises : list EmuCall -> EmuCall -> bool) (calls : list EmuCall)
      (sys : System) (ev : Event) :
  unbound_with calls sys /\ game_thread sys = Exited ->
  unbound_with calls (step cfg raises sys ev)
  /\ game_thread (step cfg raises sys ev) = Exited.
Proof.
  intros [Hu Ht]. destruct ev as [| | now r].
  - unfold step. rewrite Ht. now split.
  - unfold step. rewrite Ht. now split.
  - split; [now apply step_http_unbound |]. unfold step. now rewrite Ht.
Qed.

(** X8: when the PyBoy constructor raises (no ROM, say), the thread leaves
    [run_game] with the emulator global unbound and without calling stop;
    from then on, whatever is requested, the emulator receives no call and
    /status reports game_running = false. *)
Theorem constructor_failure_leaves_no_emulator
        (cfg : Config) (raises : list EmuCall -> EmuCall -> bool)
        (sys : System) (evs : list Event) (now : Q)
        (Hthread : game_thread sys = NotStarted)
        (Hunbound : pyboy_instance (state sys) = None)
        (Hraise : raises (emulator_calls (state sys))
                         (PyBoy_init (ROM_PATH cfg) (window_type cfg)) = true) :
  game_thread (run cfg raises (step cfg raises sys GameStart) evs) = Exited /\
  pyboy_instance (state (run cfg raises (step cfg raises sys GameStart) evs))
  = None /\
  emulator_calls (state (run cfg raises (step cfg raises sys GameStart) evs))
  = (emulator_calls (state sys)
     ++ [PyBoy_init (ROM_PATH cfg) (window_type cfg)])%list /\
  field "game_running"
        (response (status now)
                  (state (run cfg raises (step cfg raises sys GameStart) evs)))
  = JBool false.
Proof.
  assert (Hstep : unbound_with
                    (emulator_calls (state sys)
                     ++ [PyBoy_init (ROM_PATH cfg) (window_type cfg)])%list
                    (step cfg raises sys GameStart)
                  /\ game_thread (step cfg raises sys GameStart) = Exited).
  { unfold step. rewrite Hthread.
    unfold in_try, run_game_setup, bind, call. rewrite Hraise.
    unfold run_game_finally, bind, gets, ret. cbn. rewrite Hunbound.
    repeat split. cbn. exact Hunbound. }
  pose proof (run_invariant
                cfg raises
                (fun sys' =>
                   unbound_with
                     (emulator_calls (state sys)
                      ++ [PyBoy_init (ROM_PATH cfg) (window_type cfg)])%list
                     sys'
                   /\ game_thread sys' = Exited)
                (fun sys' ev => step_exited_unbound cfg raises _ sys' ev)
                evs _ Hstep) as [[Hp Hc] Ht].
  repeat split; try assumption.
  now apply status_game_not_running.
Qed.

Lemma constructor_failure_leaves_no_emulator_witness :
  emulator_calls
    (state (run default_config constructor_raises initial_system
                [GameStart;
                 Http 1 (POST_control (button_body "a"));
                 GameIteration;
                 Http 2 GET_status]))
  = [PyBoy_init "pokemon.gb" "SDL2"].
Proof.
  apply (constructor_failure_leaves_no_emulator
           default_config constructor_raises initial_system
           [Http 1 (POST_control (button_body "a"));
            GameIteration;
            Http 2 GET_status] 0);
    reflexivity.
Defined.

(** X9: when the constructor succeeds and set_emulation_speed raises, the
    thread leaves [run_game] before its loop: the emulator has received the
    construction, the speed and then stop, and the global stays bound. *)
Theorem speed_failure_stops_the_emulator
        (cfg : Config) (raises : list EmuCall -> EmuCall -> bool)
        (sys : System)
        (Hthread : game_thread sys = NotStarted)
        (Hctor : raises (emulator_calls (state sys))
                        (PyBoy_init (ROM_PATH cfg) (window_type cfg)) = false)
        (Hspeed : raises (emulator_calls (state sys)
                          ++ [PyBoy_init (ROM_PATH cfg) (window_type cfg)])%list
                         (set_emulation_speed 1) = true) :
  game_thread (step cfg raises sys GameStart) = Exited /\
  pyboy_instance (state (step cfg raises sys GameStart)) = Some PyBoyObject /\
  emulator_calls (state (step cfg raises sys GameStart))
  = (emulator_calls (state sys)
     ++ [PyBoy_init (ROM_PATH cfg) (window_type cfg);
         set_emulation_speed 1;
         stop])%list /\
  same_tracking (state sys) (state (step cfg raises sys GameStart)).
Proof.
  unfold step. rewrite Hthread.
  unfold in_try, run_game_setup, bind, call, modify. rewrite Hctor.
  cbn [snd emulator_calls record_call set_pyboy_instance]. rewrite Hspeed.
  unfold run_game_finally, bind, gets, call. cbn.
  repeat split. now rewrite <- !app_assoc.
Qed.

Lemma speed_failure_stops_the_emulator_witness :
  emulator_calls
    (state (run default_config speed_raises initial_system [GameStart]))
  = [PyBoy_init "pokemon.gb" "SDL2"; set_emulation_speed 1; stop].
Proof.
  apply (speed_failure_stops_the_emulator
           default_config speed_raises initial_system);
    reflexivity.
Defined.

(** ** Calls of stop *)

Lemma stops_app (calls : list EmuCall) (c : EmuCall) :
  stops (calls ++ [c]) = (stops calls + (if is_stop c then 1 else 0))%nat.
Proof.
  unfold stops. rewrite filter_app, length_app. cbn [filter].
  destruct (is_stop c); reflexivity.
Qed.

Lemma same_stops_refl (s : State) : same_stops s s.
Proof. reflexivity. Qed.

Lemma same_stops_trans (a b c : State) :
  same_stops a b -> same_stops b c -> same_stops a c.
Proof. unfold same_stops. congruence. Qed.

Lemma same_stops_record_call (c : EmuCall) (s : State) :
  is_stop c = false -> same_stops s (record_call c s).
Proof.
  intros Hc. unfold same_stops. cbn [emulator_calls record_call].
  rewrite stops_app, Hc. apply Nat.add_0_r.
Qed.

(** Closes the leaves of a frame condition on the number of stops. *)
Ltac stops_leaves :=
  first [ apply frames_modify; intros ?; reflexivity
        | apply frames_call; intros ?; now apply same_stops_record_call ].

Lemma control_same_stops (raises : list EmuCall -> EmuCall -> bool)
      (data : json) :
  frames same_stops (control raises data).
Proof.
  unfold control, tap.
  frame_tac same_stops_refl same_stops_trans; stops_leaves.
Qed.

Lemma run_game_setup_same_stops (cfg : Config)
      (raises : list EmuCall -> EmuCall -> bool) :
  frames same_stops (run_game_setup cfg raises).
Proof.
  unfold run_game_setup.
  frame_tac same_stops_refl same_stops_trans; stops_leaves.
Qed.

Lemma run_game_iteration_same_stops
      (raises : list EmuCall -> EmuCall -> bool) :
  frames same_stops (run_game_iteration raises).
Proof.
  unfold run_game_iteration, press_arrow, release_arrow, direction_is.
  frame_tac same_stops_refl same_stops_trans; stops_leaves.
Qed.

Lemma handle_same_stops (cfg : Config)
      (raises : list EmuCall -> EmuCall -> bool) (now : Q) (r : Request) :
  frames same_stops (handle cfg raises now r).
Proof.
  destruct r as [| data | data | |]; cbn [handle]; intros s;
    try reflexivity.
  - destruct (gaze_direction cfg (POST_eye_data data)) as [d |] eqn:Hg.
    + destruct data; try discriminate Hg.
      rewrite (receive_eye_data_gaze cfg now fields s d Hg). cbn [snd].
      destruct (direction_eqb d (current_direction s)); reflexivity.
    + destruct (receive_eye_data_no_gaze cfg now data s Hg) as [e ->].
      reflexivity.
  - apply control_same_stops.
Qed.

(** [finally] tells the emulator to stop at most once. *)
Lemma run_game_finally_stops (raises : list EmuCall -> EmuCall -> bool)
      (s : State) :
  (stops (emulator_calls (snd (run_game_finally raises s)))
   <= stops (emulator_calls s) + 1)%nat.
Proof.
  unfold run_game_finally, bind, gets, call, ret. cbv beta iota.
  destruct (pyboy_instance s); cbn [snd emulator_calls record_call].
  - rewrite stops_app. cbn [is_stop]. lia.
  - lia.
Qed.

Lemma in_try_stops_once (raises : list EmuCall -> EmuCall -> bool)
      (body : M unit) (s : State) :
  frames same_stops body ->
  stops (emulator_calls s) = 0%nat ->
  stops_once (in_try raises body s).
Proof.
  intros Hbody Hs. unfold in_try. specialize (Hbody s). unfold same_stops in Hbody.
  destruct (body s) as [[[] | e] s']; cbn [snd] in Hbody;
    unfold stops_once; cbn [state game_thread].
  - rewrite Hbody, Hs. split; [lia | reflexivity].
  - pose proof (run_game_finally_stops raises s') as Hf.
    split; [lia | intros H; now destruct H].
Qed.

Lemma step_stops_once (cfg : Config)
      (raises : list EmuCall -> EmuCall -> bool) (sys : System) (ev : Event) :
  stops_once sys -> stops_once (step cfg raises sys ev).
Proof.
  intros Hsys. pose proof Hsys as [Hle Hzero].
  destruct ev as [| | now r]; unfold step.
  - destruct (game_thread sys) eqn:Ht; try exact Hsys.
    apply in_try_stops_once; [apply run_game_setup_same_stops |].
    apply Hzero. discriminate.
  - destruct (game_thread sys) eqn:Ht; try exact Hsys.
    apply in_try_stops_once; [apply run_game_iteration_same_stops |].
    apply Hzero. discriminate.
  - unfold stops_once. cbn [state game_thread].
    rewrite (handle_same_stops cfg raises now r (state sys)). now split.
Qed.

(** X10: in every state the process can reach, the emulator has been told
    to stop at most once, and not at all while the thread has not left
    [run_game]: no request handler and no pass through the loop calls stop. *)
Theorem stop_is_called_on_exit_only
        (cfg : Config) (raises : list EmuCall -> EmuCall -> bool)
        (sys : System)
        (Hreach : reachable cfg raises sys) :
  (stops (emulator_calls (state sys)) <= 1)%nat /\
  (game_thread sys <> Exited -> stops (emulator_calls (state sys)) = 0%nat).
Proof.
  destruct Hreach as [evs ->].
  apply (run_invariant cfg raises stops_once).
  - apply step_stops_once.
  - split; [cbn; lia | reflexivity].
Qed.

Lemma stop_is_called_on_exit_only_witness :
  (stops (emulator_calls
            (state (run default_config tick_raises initial_system
                        [GameStart; GameIteration; GameIteration;
                         Http 1 (POST_control (button_body "a"))])))
   <= 1)%nat.
Proof.
  apply (stop_is_called_on_exit_only
           default_config tick_raises
           (run default_config tick_raises initial_system
                [GameStart; GameIteration; GameIteration;
                 Http 1 (POST_control (button_body "a"))])).
  exists [GameStart; GameIteration; GameIteration;
          Http 1 (POST_control (button_body "a"))].
  reflexivity.
Defined.

(** ** /control *)

(** X11: with an emulator bound that raises in none of the three calls, a
    /control request whose action is "button" and whose button is a, b,
    start or select makes the emulator receive the press of that button,
    one tick and the release of that button, in this order and nothing
    else; it is answered {status: "success"} and writes no global, whatever
    the tracking flag. *)
Theorem button_request_taps_the_button
        (raises : list EmuCall -> EmuCall -> bool) (b : Button)
        (fields : list (string * json)) (s : State) (p : PyBoy)
        (Haction : dict_get "action" JNull fields = JStr "button")
        (Hbutton : dict_get "button" JNull fields = JStr (button_name b))
        (Hbound : pyboy_instance s = Some p)
        (Hpress : raises (emulator_calls s) (send_input (button_press b))
                  = false)
        (Htick : raises (emulator_calls s ++ [send_input (button_press b)])%list
                        tick = false)
        (Hrelease : raises (emulator_calls s
                            ++ [send_input (button_press b); tick])%list
                           (send_input (button_release b)) = false) :
  control raises (JObj fields) s
  = (Ok (Json200 success),
     record_call (send_input (button_release b))
                 (record_call tick
                              (record_call (send_input (button_press b)) s))).
Proof.
  assert (Hrelease' :
            raises ((emulator_calls s ++ [send_input (button_press b)])
                    ++ [tick])%list
                   (send_input (button_release b)) = false)
    by now rewrite <- app_assoc.
  destruct s as [inst cd last enabled calls].
  cbn [pyboy_instance emulator_calls] in *. subst inst.
  unfold control, try_except, bind, lift, py_get, gets, modify, ret.
  rewrite Haction, Hbutton.
  destruct b; cbn [button_name button_press button_release] in *;
    cbn [py_eq_str String.eqb Ascii.eqb Bool.eqb pyboy_instance];
    unfold tap, bind, call;
    cbn [emulator_calls record_call];
    rewrite Hpress, Htick, Hrelease'; reflexivity.
Qed.

Lemma button_request_taps_the_button_witness :
  emulator_calls
    (snd (control never_raises (button_body "start")
                  (set_pyboy_instance (Some PyBoyObject) initial_state)))
  = [send_input PRESS_BUTTON_START; tick; send_input RELEASE_BUTTON_START].
Proof.
  apply (f_equal (fun r : Result Response * State => emulator_calls (snd r))
                 (button_request_taps_the_button
                    never_raises ButtonStart
                    [("action", JStr "button"); ("button", JStr "start")]
                    (set_pyboy_instance (Some PyBoyObject) initial_state)
                    PyBoyObject
                    eq_refl eq_refl eq_refl eq_refl eq_refl eq_refl)).
Defined.

(** X12: a /control request whose action is "press" and whose direction is
    one of the four names makes that name the current direction; one whose
    action is "release" makes the current direction None, whatever its other
    members; both are answered {status: "success"}, write nothing else (the
    time of the last update included) and call no emulator; a press followed
    by a release leaves the globals as the release alone does. *)
Theorem manual_press_and_release
        (raises : list EmuCall -> EmuCall -> bool) (d : Direction)
        (pressed released : list (string * json)) (s : State)
        (Hpress : dict_get "action" JNull pressed = JStr "press")
        (Hdirection : dict_get "direction" JNull pressed = JStr (name d))
        (Hrelease : dict_get "action" JNull released = JStr "release") :
  control raises (JObj pressed) s
  = (Ok (Json200 success), set_current_direction (Some (name d)) s) /\
  control raises (JObj released) s
  = (Ok (Json200 success), set_current_direction None s) /\
  snd (control raises (JObj released) (snd (control raises (JObj pressed) s)))
  = set_current_direction None s.
Proof.
  assert (Hp : forall s', control raises (JObj pressed) s'
                          = (Ok (Json200 success),
                             set_current_direction (Some (name d)) s')).
  { intros s'.
    unfold control, try_except, bind, lift, py_get, gets, modify, ret.
    rewrite Hpress, Hdirection. destruct d; reflexivity. }
  assert (Hr : forall s', control raises (JObj released) s'
                          = (Ok (Json200 success),
                             set_current_direction None s')).
  { intros s'.
    unfold control, try_except, bind, lift, py_get, gets, modify, ret.
    rewrite Hrelease. reflexivity. }
  split; [apply Hp |]. split; [apply Hr |].
  rewrite Hp, Hr. reflexivity.
Qed.

Lemma manual_press_and_release_witness :
  control tick_raises
          (JObj [("action", JStr "release"); ("direction", JStr "sideways")])
          (set_current_direction (Some "left") initial_state)
  = (Ok (Json200 success), initial_state).
Proof.
  apply (manual_press_and_release
           tick_raises Left
           [("direction", JStr "left"); ("action", JStr "press")]
           [("action", JStr "release"); ("direction", JStr "sideways")]
           (set_current_direction (Some "left") initial_state));
    reflexivity.
Defined.

(** ** The tracking flag over a run *)

Lemma handle_eye_tracking_enabled
      (cfg : Config) (raises : list EmuCall -> EmuCall -> bool)
      (now : Q) (r : Request) (s : State) :
  eye_tracking_enabled (snd (handle cfg raises now r s))
  = (if is_toggle (Http now r) then negb (eye_tracking_enabled s)
     else eye_tracking_enabled s).
Proof.
  destruct r as [| data | data | |]; cbn [handle is_toggle]; try reflexivity.
  - destruct (gaze_direction cfg (POST_eye_data data)) as [d |] eqn:Hg.
    + destruct data; try discriminate Hg.
      rewrite (receive_eye_data_gaze cfg now fields s d Hg). cbn [snd].
      destruct (direction_eqb d (current_direction s)); reflexivity.
    + destruct (receive_eye_data_no_gaze cfg now data s Hg) as [e ->].
      reflexivity.
  - apply (control_same_but_direction raises data s).
Qed.

Lemma flag_follows_toggles
      (cfg : Config) (raises : list EmuCall -> EmuCall -> bool)
      (evs : list Event) :
  forall sys,
    eye_tracking_enabled (state (run cfg raises sys evs))
    = xorb (eye_tracking_enabled (state sys)) (Nat.odd (count_toggles evs)).
Proof.
  induction evs as [| ev evs IH]; intros sys.
  - cbn. now rewrite xorb_false_r.
  - rewrite run_cons, IH. unfold count_toggles. cbn [filter].
    destruct ev as [| | now r].
    + rewrite (proj2 (proj2 (step_game_same_tracking cfg raises sys GameStart eq_refl))).
      reflexivity.
    + rewrite (proj2 (proj2 (step_game_same_tracking cfg raises sys GameIteration eq_refl))).
      reflexivity.
    + rewrite step_http_state, handle_eye_tracking_enabled.
      destruct (is_toggle (Http now r)); [| reflexivity].
      cbn [length]. rewrite Nat.odd_succ, <- Nat.negb_odd.
      destruct (eye_tracking_enabled (state sys)),
        (Nat.odd (length (filter is_toggle evs))); reflexivity.
Qed.

(** X13: after any sequence of events, tracking is enabled exactly when the
    number of /toggle_eye_tracking requests served so far is odd: nothing
    else writes the flag. *)
Theorem tracking_flag_is_toggle_parity
        (cfg : Config) (raises : list EmuCall -> EmuCall -> bool)
        (evs : list Event) :
  eye_tracking_enabled (state (run cfg raises initial_system evs))
  = Nat.odd (count_toggles evs).
Proof.
  rewrite flag_follows_toggles. reflexivity.
Qed.

(** ** The time of the last update and the clock *)

Lemma handle_last_eye_update_bound
      (cfg : Config) (raises : list EmuCall -> EmuCall -> bool)
      (now t0 : Q) (r : Request) (s : State) :
  last_eye_update s <= t0 -> t0 <= now ->
  last_eye_update (snd (handle cfg raises now r s)) <= now.
Proof.
  intros Hlast Hnow.
  assert (Hold : last_eye_update s <= now) by (eapply Qle_trans; eassumption).
  destruct (gaze_direction cfg r) as [d |] eqn:Hg.
  - rewrite (proj2 (handle_gaze cfg raises now r s d Hg)).
    destruct (direction_eqb d (current_direction s));
      [exact Hold | apply Qle_refl].
  - destruct (is_eye_data (Http now r)) eqn:Heye.
    + destruct r as [| data | data | |]; try discriminate Heye. cbn [handle].
      destruct (receive_eye_data_no_gaze cfg now data s Hg) as [e ->].
      exact Hold.
    + now rewrite handle_last_eye_update.
Qed.

Lemma last_eye_update_below_clock
      (cfg : Config) (raises : list EmuCall -> EmuCall -> bool)
      (evs : list Event) :
  forall (sys : System) (t0 : Q),
    last_eye_update (state sys) <= t0 ->
    clock_from t0 evs ->
    last_eye_update (state (run cfg raises sys evs)) <= latest t0 evs.
Proof.
  induction evs as [| ev evs IH]; intros sys t0 Hlast Hclock.
  - exact Hlast.
  - rewrite run_cons. destruct ev as [| | now r]; cbn [clock_from latest] in *.
    + apply IH; [| exact Hclock].
      now rewrite (proj1 (proj2 (step_game_same_tracking cfg raises sys GameStart eq_refl))).
    + apply IH; [| exact Hclock].
      now rewrite (proj1 (proj2 (step_game_same_tracking cfg raises sys GameIteration eq_refl))).
    + destruct Hclock as [Hnow Hrest]. apply IH; [| exact Hrest].
      rewrite step_http_state.
      now apply (handle_last_eye_update_bound cfg raises now t0).
Qed.

(** X14: when the clock readings of the requests never go back and start
    at or after 0, the last_update that /status reports at a reading not
    before the last request is null or a number that is not negative. *)
Theorem last_update_is_never_negative
        (cfg : Config) (raises : list EmuCall -> EmuCall -> bool)
        (evs : list Event) (now : Q)
        (Hclock : clock_from 0 evs)
        (Hnow : latest 0 evs <= now) :
  null_or_nonnegative
    (field "last_update"
           (response (status now) (state (run cfg raises initial_system evs)))).
Proof.
  pose proof (last_eye_update_below_clock cfg raises evs initial_system 0
                                          (Qle_refl 0) Hclock) as Hlast.
  assert (Hle : last_eye_update (state (run cfg raises initial_system evs))
                <= now) by (eapply Qle_trans; eassumption).
  unfold response, status, bind, gets, ret. cbn [fst field dict_get].
  cbn [String.eqb Ascii.eqb Bool.eqb].
  destruct (Qeq_bool (last_eye_update
                        (state (run cfg raises initial_system evs))) 0);
    cbn [negb].
  - now left.
  - right. eexists. split; [reflexivity |].
    unfold Qminus. now apply (proj1 (Qle_minus_iff _ _)).
Qed.

Lemma last_update_is_never_negative_witness :
  null_or_nonnegative
    (field "last_update"
           (response (status 30)
                     (state (run default_config never_raises initial_system
                                 [Http 10 (POST_eye_data (gaze_body 1200 540));
                                  GameStart;
                                  Http 20 (POST_eye_data (gaze_body 960 100))])))).
Proof.
  apply (last_update_is_never_negative
           default_config never_raises
           [Http 10 (POST_eye_data (gaze_body 1200 540));
            GameStart;
            Http 20 (POST_eye_data (gaze_body 960 100))] 30).
  - cbn. repeat split; discriminate.
  - cbn. discriminate.
Defined.

(** ** [run_game] left alone *)

(** A pass that nothing interrupts and in which nothing raises makes the
    calls of [pass_calls]. *)
Lemma run_game_iteration_quiet
      (raises : list EmuCall -> EmuCall -> bool) (s : State) :
  quiet_emulator raises ->
  fst (run_game_iteration raises s) = Ok tt /\
  emulator_calls (snd (run_game_iteration raises s))
  = (emulator_calls s ++ pass_calls s)%list.
Proof.
  intros Hq. destruct s as [inst cd last enabled calls].
  assert (Hcd : forall n, cd = Some n ->
                          exists b0 b1 b2 b3 b4,
                            String.eqb n "" = b0 /\ String.eqb n "up" = b1 /\
                            String.eqb n "down" = b2 /\
                            String.eqb n "left" = b3 /\
                            String.eqb n "right" = b4)
    by (intros n _; repeat eexists).
  unfold run_game_iteration, press_arrow, release_arrow, direction_is,
    bind, gets, ret, call, pass_calls, direction_named.
  destruct enabled, cd as [n |];
    try (destruct (Hcd n eq_refl)
          as (b0 & b1 & b2 & b3 & b4 & E0 & E1 & E2 & E3 & E4);
         destruct b0, b1, b2, b3, b4);
    repeat (cbn -[String.eqb];
            rewrite ?Hq, ?E0, ?E1, ?E2, ?E3, ?E4);
    rewrite <- ?app_assoc; split; reflexivity.
Qed.

Lemma pass_calls_same_tracking (s s' : State) :
  same_tracking s s' -> pass_calls s' = pass_calls s.
Proof.
  intros (Hd & _ & He). unfold pass_calls. now rewrite Hd, He.
Qed.

Lemma loop_quiet (cfg : Config) (raises : list EmuCall -> EmuCall -> bool)
      (n : nat) :
  quiet_emulator raises ->
  forall sys,
    game_thread sys = Looping ->
    game_thread (run cfg raises sys (repeat GameIteration n)) = Looping /\
    same_globals (state sys)
                 (state (run cfg raises sys (repeat GameIteration n))) /\
    emulator_calls (state (run cfg raises sys (repeat GameIteration n)))
    = (emulator_calls (state sys)
       ++ concat (repeat (pass_calls (state sys)) n))%list.
Proof.
  intros Hq. induction n as [| n IH]; intros sys Ht.
  - cbn [repeat concat run fold_left].
    split; [exact Ht |]. split; [apply same_globals_refl |].
    symmetry. apply app_nil_r.
  - cbn [repeat]. rewrite run_cons.
    destruct (run_game_iteration_quiet raises (state sys) Hq) as [Hok Hcalls].
    pose proof (run_game_iteration_same_globals raises (state sys)) as Hsame.
    assert (Hstep : step cfg raises sys GameIteration
                    = {| state := snd (run_game_iteration raises (state sys));
                         game_thread := Looping |}).
    { unfold step. rewrite Ht. unfold in_try.
      destruct (run_game_iteration raises (state sys)) as [[[] | e] s'];
        [reflexivity | discriminate Hok]. }
    rewrite Hstep.
    destruct (IH {| state := snd (run_game_iteration raises (state sys));
                    game_thread := Looping |} eq_refl)
      as (Ht' & Hglobals & Hcalls').
    cbn [state] in *.
    split; [exact Ht' |]. split.
    + eapply same_globals_trans; eassumption.
    + rewrite Hcalls', Hcalls.
      rewrite (pass_calls_same_tracking _ _ (proj1 Hsame)).
      cbn [concat]. now rewrite app_assoc.
Qed.

(** X15: with an emulator that raises nothing and no request served
    meanwhile, [run_game] constructs the emulator, sets its speed, and then
    makes in each of its n passes the same calls: press, tick, release, tick
    for the direction held when tracking is enabled, a single tick when
    tracking is disabled or no direction is held; the thread is still in its
    loop and has written no tracking global. *)
Theorem run_game_calls
        (cfg : Config) (raises : list EmuCall -> EmuCall -> bool)
        (n : nat) (s : State)
        (Hquiet : quiet_emulator raises) :
  game_thread (run_game cfg raises n s) = Looping /\
  pyboy_instance (state (run_game cfg raises n s)) = Some PyBoyObject /\
  same_tracking s (state (run_game cfg raises n s)) /\
  emulator_calls (state (run_game cfg raises n s))
  = (emulator_calls s
     ++ [PyBoy_init (ROM_PATH cfg) (window_type cfg); set_emulation_speed 1]
     ++ concat (repeat (pass_calls s) n))%list.
Proof.
  unfold run_game. rewrite run_cons.
  assert (Hstart : step cfg raises {| state := s; game_thread := NotStarted |}
                        GameStart
                   = {| state := record_call
                                   (set_emulation_speed 1)
                                   (set_pyboy_instance
                                      (Some PyBoyObject)
                                      (record_call
                                         (PyBoy_init (ROM_PATH cfg)
                                                     (window_type cfg)) s));
                        game_thread := Looping |}).
  { unfold step, in_try, run_game_setup, bind, call, modify.
    cbn [game_thread state]. rewrite !Hquiet. reflexivity. }
  rewrite Hstart.
  destruct (loop_quiet
              cfg raises n Hquiet
              {| state := record_call
                            (set_emulation_speed 1)
                            (set_pyboy_instance
                               (Some PyBoyObject)
                               (record_call
                                  (PyBoy_init (ROM_PATH cfg) (window_type cfg))
                                  s));
                 game_thread := Looping |}
              eq_refl)
    as (Ht & [Htracking Hbound] & Hcalls).
  cbn [state] in *.
  split; [exact Ht |]. split; [exact Hbound |]. split.
  - eapply same_tracking_trans; [| exact Htracking]. repeat split.
  - rewrite Hcalls. cbn [emulator_calls record_call set_pyboy_instance].
    unfold pass_calls.
    cbn [eye_tracking_enabled current_direction record_call set_pyboy_instance].
    now rewrite <- !app_assoc.
Qed.

Lemma run_game_calls_witness :
  emulator_calls
    (state (run_game default_config never_raises 2
                     (set_eye_tracking_enabled
                        true (set_current_direction (Some "left") initial_state))))
  = [PyBoy_init "pokemon.gb" "SDL2"; set_emulation_speed 1;
     send_input PRESS_ARROW_LEFT; tick; send_input RELEASE_ARROW_LEFT; tick;
     send_input PRESS_ARROW_LEFT; tick; send_input RELEASE_ARROW_LEFT; tick].
Proof.
  apply (run_game_calls
           default_config never_raises 2
           (set_eye_tracking_enabled
              true (set_current_direction (Some "left") initial_state))).
  intros history c. reflexivity.
Defined.

(** ** Symmetry of the classifier *)







(** ** Arrow events and the tracking flag *)

Lemma arrows_app (calls : list EmuCall) (c : EmuCall) :
  arrows (calls ++ [c]) = (arrows calls + (if is_arrow c then 1 else 0))%nat.
Proof.
  unfold arrows. rewrite filter_app, length_app. cbn [filter].
  destruct (is_arrow c); reflexivity.
Qed.

Lemma same_arrows_refl (s : State) : same_arrows s s.
Proof. reflexivity. Qed.

Lemma same_arrows_trans (a b c : State) :
  same_arrows a b -> same_arrows b c -> same_arrows a c.
Proof. unfold same_arrows. congruence. Qed.

Lemma same_arrows_record_call (c : EmuCall) (s : State) :
  is_arrow c = false -> same_arrows s (record_call c s).
Proof.
  intros Hc. unfold same_arrows. cbn [emulator_calls record_call].
  rewrite arrows_app, Hc. apply Nat.add_0_r.
Qed.

(** Closes the leaves of a frame condition on the number of arrow events. *)
Ltac arrows_leaves :=
  first [ apply frames_modify; intros ?; reflexivity
        | apply frames_call; intros ?; now apply same_arrows_record_call ].

Lemma control_same_arrows (raises : list EmuCall -> EmuCall -> bool)
      (data : json) :
  frames same_arrows (control raises data).
Proof.
  unfold control, tap.
  frame_tac same_arrows_refl same_arrows_trans; arrows_leaves.
Qed.

Lemma run_game_setup_same_arrows (cfg : Config)
      (raises : list EmuCall -> EmuCall -> bool) :
  frames same_arrows (run_game_setup cfg raises).
Proof.
  unfold run_game_setup.
  frame_tac same_arrows_refl same_arrows_trans; arrows_leaves.
Qed.

Lemma run_game_finally_same_arrows
      (raises : list EmuCall -> EmuCall -> bool) :
  frames same_arrows (run_game_finally raises).
Proof.
  unfold run_game_finally.
  frame_tac same_arrows_refl same_arrows_trans; arrows_leaves.
Qed.

Lemma handle_same_arrows (cfg : Config)
      (raises : list EmuCall -> EmuCall -> bool) (now : Q) (r : Request) :
  frames same_arrows (handle cfg raises now r).
Proof.
  destruct r as [| data | data | |]; cbn [handle]; intros s;
    try reflexivity.
  - destruct (gaze_direction cfg (POST_eye_data data)) as [d |] eqn:Hg.
    + destruct data; try discriminate Hg.
      rewrite (receive_eye_data_gaze cfg now fields s d Hg). cbn [snd].
      destruct (direction_eqb d (current_direction s)); reflexivity.
    + destruct (receive_eye_data_no_gaze cfg now data s Hg) as [e ->].
      reflexivity.
  - apply control_same_arrows.
Qed.

(** The [try] block run from one state. *)
Lemma in_try_at (raises : list EmuCall -> EmuCall -> bool)
      (R : State -> State -> Prop) (body : M unit) (s : State) :
  (forall a b c, R a b -> R b c -> R a c) ->
  R s (snd (body s)) -> frames R (run_game_finally raises) ->
  R s (state (in_try raises body s)).
Proof.
  intros Htrans Hbody Hfinally. unfold in_try.
  destruct (body s) as [[[] | e] s']; cbn [snd state] in *.
  - exact Hbody.
  - eapply Htrans; [exact Hbody | apply Hfinally].
Qed.

Lemma step_disabled_without_arrows
      (cfg : Config) (raises : list EmuCall -> EmuCall -> bool)
      (sys : System) (ev : Event) :
  is_toggle ev = false ->
  disabled_without_arrows sys ->
  disabled_without_arrows (step cfg raises sys ev).
Proof.
  intros Hev Hsys. pose proof Hsys as [Hoff Hzero].
  unfold disabled_without_arrows.
  destruct ev as [| | now r].
  - rewrite (proj2 (proj2 (step_game_same_tracking cfg raises sys GameStart eq_refl))).
    split; [exact Hoff |]. rewrite <- Hzero.
    unfold step. destruct (game_thread sys); try reflexivity.
    apply (in_try_at raises same_arrows);
      [exact same_arrows_trans | apply run_game_setup_same_arrows
       | apply run_game_finally_same_arrows].
  - rewrite (proj2 (proj2 (step_game_same_tracking cfg raises sys GameIteration eq_refl))).
    split; [exact Hoff |]. rewrite <- Hzero.
    unfold step. destruct (game_thread sys); try reflexivity.
    apply (in_try_at raises same_arrows);
      [exact same_arrows_trans | | apply run_game_finally_same_arrows].
    unfold same_arrows.
    rewrite (run_game_iteration_idle raises (state sys) (or_introl Hoff)).
    rewrite arrows_app. apply Nat.add_0_r.
  - rewrite step_http_state, handle_eye_tracking_enabled, Hev.
    split; [exact Hoff |]. rewrite <- Hzero. apply handle_same_arrows.
Qed.

(** X18: as long as no /toggle_eye_tracking request has been served,
    tracking is disabled and the emulator receives no arrow event, whatever
    else happens: a direction held through /control press or given by
    /eye_data reaches the emulator only once tracking is enabled. *)
Theorem no_arrow_before_the_first_toggle
        (cfg : Config) (raises : list EmuCall -> EmuCall -> bool)
        (evs : list Event)
        (Hnotoggle : Forall (fun ev => is_toggle ev = false) evs) :
  eye_tracking_enabled (state (run cfg raises initial_system evs)) = false /\
  arrows (emulator_calls (state (run cfg raises initial_system evs))) = 0%nat.
Proof.
  assert (Hgen : forall sys, disabled_without_arrows sys ->
                             disabled_without_arrows (run cfg raises sys evs)).
  { induction Hnotoggle as [| ev evs Hev _ IH]; intros sys Hsys.
    - exact Hsys.
    - rewrite run_cons. apply IH. now apply step_disabled_without_arrows. }
  apply Hgen. split; reflexivity.
Qed.

Lemma no_arrow_before_the_first_toggle_witness :
  arrows
    (emulator_calls
       (state (run default_config never_raises initial_system
                   [GameStart;
                    Http 1 (POST_control (press_body "up"));
                    GameIteration;
                    Http 2 (POST_eye_data (gaze_body 1200 540));
                    GameIteration;
                    Http 3 (POST_control (button_body "a"))])))
  = 0%nat.
Proof.
  apply (no_arrow_before_the_first_toggle
           default_config never_raises
           [GameStart;
            Http 1 (POST_control (press_body "up"));
            GameIteration;
            Http 2 (POST_eye_data (gaze_body 1200 540));
            GameIteration;
            Http 3 (POST_control (button_body "a"))]).
  repeat constructor.
Defined.

(** ** Last write wins *)

Lemma handle_override (cfg : Config)
      (raises : list EmuCall -> EmuCall -> bool)
      (now : Q) (r : Request) (s : State) (d : option string) :
  override_direction r = Some d ->
  current_direction (snd (handle cfg raises now r s)) = d.
Proof.
  intros Hov. destruct r as [| data | data | |]; try discriminate Hov.
  destruct data; try discriminate Hov.
  cbn [override_direction] in Hov. cbn [handle].
  unfold control, try_except, bind, lift, py_get, gets, modify, ret.
  destruct (py_eq_str (dict_get "action" JNull fields) "press").
  - destruct (py_in (dict_get "direction" JNull fields)
                    ["up"; "down"; "left"; "right"]);
      [| discriminate Hov].
    injection Hov as <-. reflexivity.
  - destruct (py_eq_str (dict_get "action" JNull fields) "release");
      [| discriminate Hov].
    injection Hov as <-. reflexivity.
Qed.

Lemma override_direction_None (r : Request) :
  override_direction r = None -> overrides r = false.
Proof.
  destruct r as [| data | data | |]; try reflexivity.
  destruct data; try reflexivity.
  cbn [override_direction overrides].
  destruct (py_eq_str (dict_get "action" JNull fields) "press") eqn:Ep;
    cbn [andb orb].
  - destruct (py_in (dict_get "direction" JNull fields)
                    ["up"; "down"; "left"; "right"]); [discriminate |].
    intros _. cbn [orb].
    apply py_eq_str_eq in Ep. rewrite Ep. reflexivity.
  - destruct (py_eq_str (dict_get "action" JNull fields) "release");
      [discriminate | reflexivity].
Qed.

Lemma step_written_direction
      (cfg : Config) (raises : list EmuCall -> EmuCall -> bool)
      (sys : System) (ev : Event) :
  current_direction (state (step cfg raises sys ev))
  = match written_direction cfg ev with
    | Some d => d
    | None => current_direction (state sys)
    end.
Proof.
  destruct ev as [| | now r]; cbn [written_direction].
  - apply (step_game_same_tracking cfg raises sys GameStart eq_refl).
  - apply (step_game_same_tracking cfg raises sys GameIteration eq_refl).
  - rewrite step_http_state.
    destruct (gaze_direction cfg r) as [d |] eqn:Hg.
    + apply (handle_gaze cfg raises now r (state sys) d Hg).
    + destruct (override_direction r) as [d |] eqn:Hov.
      * now apply handle_override.
      * apply handle_quiet; [exact Hg | now apply override_direction_None].
Qed.

(** X19: last write wins: after any sequence of events the current
    direction is the one written by the most recent event that writes it,
    either the classifier's output for a GazePoint or the direction of a
    manual override (None for a release), and None when no event wrote it;
    the emulator thread never writes it. *)
Theorem current_direction_is_last_written
        (cfg : Config) (raises : list EmuCall -> EmuCall -> bool)
        (evs : list Event) :
  current_direction (state (run cfg raises initial_system evs))
  = last_written cfg None evs.
Proof.
  change None with (current_direction (state initial_system)) at 1.
  generalize initial_system.
  induction evs as [| ev evs IH]; intros sys.
  - reflexivity.
  - rewrite run_cons, IH, step_written_direction. reflexivity.
Qed.

(** X20: when an emulator is bound and the press of a requested button is
    accepted but the tick after it raises, the request is answered 400, no
    release is sent for the button, and no global is written. *)
Theorem button_request_tick_failure
        (raises : list EmuCall -> EmuCall -> bool) (b : Button)
        (fields : list (string * json)) (s : State) (p : PyBoy)
        (Haction : dict_get "action" JNull fields = JStr "button")
        (Hbutton : dict_get "button" JNull fields = JStr (button_name b))
        (Hbound : pyboy_instance s = Some p)
        (Hpress : raises (emulator_calls s) (send_input (button_press b))
                  = false)
        (Htick : raises (emulator_calls s ++ [send_input (button_press b)])%list
                        tick = true) :
  control raises (JObj fields) s
  = (Ok (Json400 EmulatorError),
     record_call tick (record_call (send_input (button_press b)) s)).
Proof.
  destruct s as [inst cd last enabled calls].
  cbn [pyboy_instance emulator_calls] in *. subst inst.
  unfold control, try_except, bind, lift, py_get, gets, modify, ret.
  rewrite Haction, Hbutton.
  destruct b; cbn [button_name button_press button_release] in *;
    cbn [py_eq_str String.eqb Ascii.eqb Bool.eqb pyboy_instance];
    unfold tap, bind, call;
    cbn [emulator_calls record_call];
    rewrite Hpress, Htick; reflexivity.
Qed.

Lemma button_request_tick_failure_witness :
  control tick_raises (button_body "b")
          (set_pyboy_instance (Some PyBoyObject) initial_state)
  = (Ok (Json400 EmulatorError),
     record_call tick
                 (record_call (send_input PRESS_BUTTON_B)
                              (set_pyboy_instance (Some PyBoyObject)
                                                  initial_state))).
Proof.
  apply (button_request_tick_failure
           tick_raises ButtonB
           [("action", JStr "button"); ("button", JStr "b")]
           (set_pyboy_instance (Some PyBoyObject) initial_state)
           PyBoyObject);
    reflexivity.
Defined.
